(** * rss_scrapper.py: the feed parser [rss_parser], embedded and verified

    The development follows [src/rss_scrapper.py].  Python values are
    embedded as a small universe [pyobj] (None, str, list, dict), a
    [dict] keeps its insertion order, exceptions are an error monad, and
    the XML tree built by [xml.etree.ElementTree] is the inductive type
    [Element].  A Python [str] is a [string] whose characters are code
    points below 256. *)

From Stdlib Require Import List String Ascii ZArith NArith Bool Lia.
Import ListNotations.

Open Scope list_scope.
Open Scope string_scope.

(** ** Exceptions *)

Inductive exn : Type :=
| ParseError                (* xml.etree.ElementTree.ParseError *)
| TypeError
| KeyError (key : string)
| AttributeError.

Inductive result (A : Type) : Type :=
| Ok (a : A)
| Raise (e : exn).

Arguments Ok {A} a.
Arguments Raise {A} e.

Definition bind {A B : Type} (m : result A) (k : A -> result B) : result B :=
  match m with
  | Ok a => k a
  | Raise e => Raise e
  end.

Notation "x <- m ;; k" := (bind m (fun x => k))
  (at level 61, m at next level, right associativity).
Notation "' p <- m ;; k" := (bind m (fun x => match x with p => k end))
  (at level 61, p pattern, m at next level, right associativity).

Definition succeeds {A : Type} (m : result A) : Prop := exists a, m = Ok a.
Definition fails {A : Type} (m : result A) : Prop := exists e, m = Raise e.

(** A Python [for] loop whose body may raise: the state is threaded
    through the elements in order and the first exception ends the loop. *)
Fixpoint for_each {S A : Type} (body : S -> A -> result S) (l : list A) (s : S)
  : result S :=
  match l with
  | [] => Ok s
  | x :: r => s' <- body s x ;; for_each body r s'
  end.

(** ** Python values *)

#[local] Set Warnings "-register-all".

Inductive pyobj : Type :=
| PyNone
| PyStr (s : string)
| PyList (l : list pyobj)
| PyDict (d : list (string * pyobj)).

(** A dict with string keys, in insertion order. *)
Definition dict : Type := list (string * pyobj).

(** [d.get(k)] *)
Fixpoint dict_get (k : string) (d : dict) : option pyobj :=
  match d with
  | [] => None
  | (k', v) :: r => if String.eqb k k' then Some v else dict_get k r
  end.

(** [k in d] *)
Definition contains (k : string) (d : dict) : bool :=
  match dict_get k d with Some _ => true | None => false end.

(** [d[k]] *)
Definition getitem (d : dict) (k : string) : result pyobj :=
  match dict_get k d with
  | Some v => Ok v
  | None => Raise (KeyError k)
  end.

(** [d[k] = v]: an existing key keeps its position, a new key goes last. *)
Fixpoint dict_set (k : string) (v : pyobj) (d : dict) : dict :=
  match d with
  | [] => [(k, v)]
  | (k', v') :: r =>
      if String.eqb k k' then (k', v) :: r else (k', v') :: dict_set k v r
  end.

(** [d[k].append(x)] *)
Definition dict_append (k : string) (x : pyobj) (d : dict) : result dict :=
  o <- getitem d k ;;
  match o with
  | PyList l => Ok (dict_set k (PyList (l ++ [x])%list) d)
  | _ => Raise AttributeError
  end.

(** ** Characters and strings *)

Definition chr (n : nat) : ascii := ascii_of_nat n.
Definition ord (c : ascii) : nat := nat_of_ascii c.

Definition str1 (c : ascii) : string := String c EmptyString.

Definition squote : ascii := chr 39.
Definition dquote : ascii := chr 34.
Definition backslash : ascii := chr 92.
Definition newline : ascii := chr 10.

(** [str.isspace] on one code point below 256. *)
Definition is_space (c : ascii) : bool :=
  let n := ord c in
  (Nat.leb 9 n && Nat.leb n 13) || (Nat.leb 28 n && Nat.leb n 32)
  || Nat.eqb n 133 || Nat.eqb n 160.

Fixpoint lstrip (s : string) : string :=
  match s with
  | EmptyString => EmptyString
  | String c r => if is_space c then lstrip r else s
  end.

Fixpoint rstrip (s : string) : string :=
  match s with
  | EmptyString => EmptyString
  | String c r =>
      match rstrip r with
      | EmptyString => if is_space c then EmptyString else str1 c
      | r' => String c r'
      end
  end.

(** [s.strip()] *)
Definition strip (s : string) : string := rstrip (lstrip s).

Definition hex_digit (n : nat) : ascii :=
  if Nat.ltb n 10 then chr (48 + n) else chr (87 + n).

(** Two lower-case hexadecimal digits of a code point below 256. *)
Definition hex2 (c : ascii) : string :=
  String (hex_digit (ord c / 16)) (str1 (hex_digit (ord c mod 16))).

Fixpoint has_char (c : ascii) (s : string) : bool :=
  match s with
  | EmptyString => false
  | String c' r => Ascii.eqb c c' || has_char c r
  end.

(** [str.isprintable] on one code point below 256. *)
Definition is_printable (c : ascii) : bool :=
  let n := ord c in
  (Nat.leb 32 n && Nat.leb n 126) || (Nat.leb 161 n && negb (Nat.eqb n 173)).

Definition repr_char (quote c : ascii) : string :=
  if Ascii.eqb c quote || Ascii.eqb c backslash then String backslash (str1 c)
  else if Nat.eqb (ord c) 9 then String backslash "t"
  else if Nat.eqb (ord c) 10 then String backslash "n"
  else if Nat.eqb (ord c) 13 then String backslash "r"
  else if is_printable c then str1 c
  else String backslash (String "x" (hex2 c)).

Fixpoint repr_chars (quote : ascii) (s : string) : string :=
  match s with
  | EmptyString => EmptyString
  | String c r => repr_char quote c ++ repr_chars quote r
  end.

(** [repr(s)] for a str. *)
Definition repr_str (s : string) : string :=
  let quote :=
    if has_char squote s && negb (has_char dquote s) then dquote else squote in
  String quote (repr_chars quote s ++ str1 quote).

(** [repr(o)] *)
Fixpoint repr (o : pyobj) : string :=
  match o with
  | PyNone => "None"
  | PyStr s => repr_str s
  | PyList l => "[" ++ String.concat ", " (map repr l) ++ "]"
  | PyDict d =>
      "{" ++ String.concat ", "
               (map (fun kv => repr_str (fst kv) ++ ": " ++ repr (snd kv)) d)
      ++ "}"
  end.

(** [str(o)], which is what an f-string field [{o}] renders. *)
Definition str (o : pyobj) : string :=
  match o with
  | PyStr s => s
  | _ => repr o
  end.

Fixpoint chars (s : string) : list string :=
  match s with
  | EmptyString => []
  | String c r => str1 c :: chars r
  end.

Definition as_str (o : pyobj) : result string :=
  match o with
  | PyStr s => Ok s
  | _ => Raise TypeError
  end.

Fixpoint all_str (l : list pyobj) : result (list string) :=
  match l with
  | [] => Ok []
  | o :: r => s <- as_str o ;; ss <- all_str r ;; Ok (s :: ss)
  end.

(** [sep.join(o)]: [o] must be iterable and every element a str. *)
Definition join (sep : string) (o : pyobj) : result string :=
  match o with
  | PyNone => Raise TypeError
  | PyStr s => Ok (String.concat sep (chars s))
  | PyList l => ss <- all_str l ;; Ok (String.concat sep ss)
  | PyDict d => Ok (String.concat sep (map fst d))
  end.

(** ** [json.dumps(o, indent=2, ensure_ascii=False)] *)

Definition json_char (c : ascii) : string :=
  if Ascii.eqb c dquote || Ascii.eqb c backslash then String backslash (str1 c)
  else if Nat.eqb (ord c) 8 then String backslash "b"
  else if Nat.eqb (ord c) 12 then String backslash "f"
  else if Nat.eqb (ord c) 10 then String backslash "n"
  else if Nat.eqb (ord c) 13 then String backslash "r"
  else if Nat.eqb (ord c) 9 then String backslash "t"
  else if Nat.ltb (ord c) 32 then String backslash ("u00" ++ hex2 c)
  else str1 c.

Fixpoint json_chars (s : string) : string :=
  match s with
  | EmptyString => EmptyString
  | String c r => json_char c ++ json_chars r
  end.

Definition encode_basestring (s : string) : string :=
  String dquote (json_chars s ++ str1 dquote).

Fixpoint spaces (n : nat) : string :=
  match n with
  | O => EmptyString
  | S m => String " " (spaces m)
  end.

Definition newline_indent (level : nat) : string :=
  String newline (spaces (2 * level)).

Fixpoint dumps_at (level : nat) (o : pyobj) : string :=
  match o with
  | PyNone => "null"
  | PyStr s => encode_basestring s
  | PyList [] => "[]"
  | PyList l =>
      "[" ++ newline_indent (S level)
      ++ String.concat ("," ++ newline_indent (S level))
           (map (dumps_at (S level)) l)
      ++ newline_indent level ++ "]"
  | PyDict [] => "{}"
  | PyDict d =>
      "{" ++ newline_indent (S level)
      ++ String.concat ("," ++ newline_indent (S level))
           (map (fun kv =>
                   encode_basestring (fst kv) ++ ": "
                   ++ dumps_at (S level) (snd kv)) d)
      ++ newline_indent level ++ "}"
  end.

Definition dumps (o : pyobj) : string := dumps_at 0 o.

(** ** The element tree *)

(** An [xml.etree.ElementTree.Element]: its tag, its [text] (the character
    data before the first child, [None] when there is none) and its
    children in document order. *)
Inductive Element : Type :=
| Elem (tag : string) (text : option string) (children : list Element).

Definition tag (e : Element) : string := let 'Elem t _ _ := e in t.
Definition text (e : Element) : option string := let 'Elem _ x _ := e in x.
Definition children (e : Element) : list Element := let 'Elem _ _ c := e in c.

Definition has_tag (t : string) (e : Element) : bool := tag e =? t.

(** [e.findall(path)] for a path [t1/t2/...] of plain tags: the children
    tagged [t1], then their children tagged [t2], ..., in document order. *)
Fixpoint findall (path : list string) (e : Element) : list Element :=
  match path with
  | [] => [e]
  | t :: rest => flat_map (findall rest) (filter (has_tag t) (children e))
  end.

(** [e.find(path)]: the first match, or [None]. *)
Definition find (path : list string) (e : Element) : option Element :=
  hd_error (findall path e).

(** Iterating [e.find(...)]: the children of the element, a TypeError on
    [None]. *)
Definition iter (o : option Element) : result (list Element) :=
  match o with
  | Some e => Ok (children e)
  | None => Raise TypeError
  end.

(** [elem.text] *)
Definition text_obj (e : Element) : pyobj :=
  match text e with
  | Some s => PyStr s
  | None => PyNone
  end.

(** [elem.text.strip() if elem.text else None] *)
Definition stripped_text (e : Element) : pyobj :=
  match text e with
  | Some (String c r) => PyStr (strip (String c r))
  | _ => PyNone
  end.

(** ** Extraction (lines 34-71) *)

(** The [category] branch: create the list on first use, then append. *)
Definition add_category (d : dict) (e : Element) : result dict :=
  let d := if negb (contains "category" d)
           then dict_set "category" (PyList []) d else d in
  dict_append "category" (stripped_text e) d.

(** Body of the loop over the children of the channel (lines 35-52). *)
Definition channel_step (channel : dict) (elem : Element) : result dict :=
  if tag elem =? "title" then Ok (dict_set "title" (text_obj elem) channel)
  else if tag elem =? "link" then Ok (dict_set "link" (text_obj elem) channel)
  else if tag elem =? "lastBuildDate"
  then Ok (dict_set "lastBuildDate" (text_obj elem) channel)
  else if tag elem =? "pudDate"
  then Ok (dict_set "pubDate" (text_obj elem) channel)
  else if tag elem =? "language"
  then Ok (dict_set "language" (text_obj elem) channel)
  else if tag elem =? "category" then add_category channel elem
  else if tag elem =? "managingEditor"
  then Ok (dict_set "managingEditor" (text_obj elem) channel)
  else if tag elem =? "description"
  then Ok (dict_set "description" (text_obj elem) channel)
  else Ok channel.

(** Body of the loop over the children of an item (lines 57-70): a
    sequence of independent [if] statements. *)
Definition item_step (item_dict : dict) (el : Element) : result dict :=
  let d := item_dict in
  let d := if tag el =? "title" then dict_set "title" (text_obj el) d else d in
  let d := if tag el =? "author" then dict_set "author" (text_obj el) d else d in
  let d := if tag el =? "pubDate" then dict_set "pubDate" (text_obj el) d else d in
  let d := if tag el =? "link" then dict_set "link" (text_obj el) d else d in
  d <- (if tag el =? "category" then add_category d el else Ok d) ;;
  let d := if tag el =? "description"
           then dict_set "description" (text_obj el) d else d in
  Ok d.

(** The channel record built from the children of a channel element. *)
Definition parse_channel (elems : list Element) : result dict :=
  for_each channel_step elems [].

(** The record of one item element. *)
Definition parse_item (itm : Element) : result dict :=
  for_each item_step (children itm) [].

(** Lines 55-71: one record per item, appended to the list [item]. *)
Definition items_step (item : list dict) (itm : Element) : result (list dict) :=
  item_dict <- parse_item itm ;;
  Ok (item ++ [item_dict])%list.

(** Lines 34-71 on the parsed tree. *)
Definition extract (tree : Element) : result (dict * list dict) :=
  elems <- iter (find ["channel"] tree) ;;
  channel <- parse_channel elems ;;
  item <- for_each items_step (findall ["channel"; "item"] tree) [] ;;
  Ok (channel, item).

(** ** Rendering (lines 73-122) *)

(** [l[:n]] *)
Definition slice_to {A : Type} (l : list A) (n : Z) : list A :=
  if (n <? 0)%Z then firstn (Z.to_nat (Z.of_nat (List.length l) + n)) l
  else firstn (Z.to_nat n) l.

(** [item[:limit] if limit else item] *)
Definition select_items {A : Type} (item : list A) (limit : option Z) : list A :=
  match limit with
  | Some n => if (n =? 0)%Z then item else slice_to item n
  | None => item
  end.

(** [if k in channel: data[k] = channel[k]] *)
Definition copy_field (k : string) (channel data : dict) : dict :=
  match dict_get k channel with
  | Some v => dict_set k v data
  | None => data
  end.

(** Lines 74-91: the mapping [data] that is serialized. *)
Definition json_data (channel : dict) (item : list dict) (limit : option Z)
  : result dict :=
  let data := [] in
  let data := copy_field "title" channel data in
  let data := copy_field "link" channel data in
  let data := copy_field "lastBuildDate" channel data in
  let data := copy_field "pubDate" channel data in
  let data := copy_field "language" channel data in
  data <- match dict_get "category" channel with
          | Some v => s <- join EmptyString v ;;
                      Ok (dict_set "category" (PyStr s) data)
          | None => Ok data
          end ;;
  let data := copy_field "managingEditor" channel data in
  let data := copy_field "description" channel data in
  Ok (dict_set "items" (PyList (map PyDict (select_items item limit))) data).

Definition render_json (channel : dict) (item : list dict) (limit : option Z)
  : result (list pyobj) :=
  data <- json_data channel item limit ;;
  Ok [PyStr (dumps (PyDict data))].

(** [if k in d: output.append(f'{label}{d[k]}')] *)
Definition append_field (label k : string) (d : dict) (output : list pyobj)
  : list pyobj :=
  match dict_get k d with
  | Some v => (output ++ [PyStr (label ++ str v)])%list
  | None => output
  end.

(** Lines 94-107. *)
Definition text_header (channel : dict) : result (list pyobj) :=
  let output := [] in
  title <- getitem channel "title" ;;
  let output := (output ++ [PyStr ("Feed: " ++ str title)])%list in
  link <- getitem channel "link" ;;
  let output := (output ++ [PyStr ("Link: " ++ str link)])%list in
  let output := append_field "Last Build Date: " "lastBuildDate" channel output in
  let output := append_field "Publish Date: " "pubDate" channel output in
  let output := append_field "Language: " "language" channel output in
  let output := append_field "Categories: " "category" channel output in
  let output := append_field "Editor: " "managingEditor" channel output in
  let output := append_field "Description: " "description" channel output in
  Ok output.

(** Lines 109-122: the lines of one item, appended to [output]. *)
Definition text_item (output : list pyobj) (itm : dict) : result (list pyobj) :=
  let output := (output ++ [PyStr " "])%list in
  title <- getitem itm "title" ;;
  let output := (output ++ [PyStr ("Title: " ++ str title)])%list in
  let output := append_field "Author: " "author" itm output in
  let output := append_field "Published: " "pubDate" itm output in
  let output := append_field "Link: " "link" itm output in
  output <- match dict_get "category" itm with
            | Some v => s <- join ", " v ;;
                        Ok (output ++ [PyStr ("Categories: " ++ s)])%list
            | None => Ok output
            end ;;
  let output := (output ++ [PyStr " "])%list in
  let output := match dict_get "description" itm with
                | Some v => (output ++ [v])%list
                | None => output
                end in
  Ok (output ++ [PyStr " "])%list.

Definition render_text (channel : dict) (item : list dict) (limit : option Z)
  : result (list pyobj) :=
  output <- text_header channel ;;
  for_each text_item (select_items item limit) output.

(** Lines 73-124. *)
Definition render (channel : dict) (item : list dict) (limit : option Z)
  (json : bool) : result (list pyobj) :=
  if json then render_json channel item limit
  else render_text channel item limit.

(** [rss_parser] from the parsed tree on. *)
Definition rss_parser_tree (tree : Element) (limit : option Z) (json : bool)
  : result (list pyobj) :=
  '(channel, item) <- extract tree ;;
  render channel item limit json.

(** ** The parser *)

Section Parser.

(** [ElT.fromstring]: the root element of a well-formed document, [None]
    when the text is not well-formed XML (a ParseError). *)
Variable fromstring : string -> option Element.

(** Lines 12-124. *)
Definition rss_parser (xml : string) (limit : option Z) (json : bool)
  : result (list pyobj) :=
  match fromstring xml with
  | None => Raise ParseError
  | Some tree => rss_parser_tree tree limit json
  end.

End Parser.

(** ** Vocabulary of the statements *)

(** The last element of a list, if any. *)
Definition last_error {A : Type} (l : list A) : option A := hd_error (rev l).

(** The last child tagged [t]. *)
Definition last_tagged (t : string) (elems : list Element) : option Element :=
  last_error (filter (has_tag t) elems).

(** The trimmed texts of the children tagged [category], in document order. *)
Definition category_texts (elems : list Element) : list pyobj :=
  map stripped_text (filter (has_tag "category") elems).

(** The value stored under [category]: the key is absent when no category
    was seen, and holds the list otherwise. *)
Definition list_field (l : list pyobj) : option pyobj :=
  match l with
  | [] => None
  | _ => Some (PyList l)
  end.

(** The source tag of every text field of the channel record, with the
    key it is stored under. *)
Definition channel_fields : list (string * string) :=
  [("title", "title"); ("link", "link"); ("lastBuildDate", "lastBuildDate");
   ("pudDate", "pubDate"); ("language", "language");
   ("managingEditor", "managingEditor"); ("description", "description")].

(** The same for an item record. *)
Definition item_fields : list (string * string) :=
  [("title", "title"); ("author", "author"); ("pubDate", "pubDate");
   ("link", "link"); ("description", "description")].

(** [d] is the record of the children [elems] for the text fields
    [fields]: every text field holds the text of the last child with its
    tag and is absent when there is none, [category] holds the list of the
    trimmed category texts and is absent when there is none, and no other
    key is present. *)
Definition record_of (fields : list (string * string)) (elems : list Element)
  (d : dict) : Prop :=
  (forall t k, In (t, k) fields ->
     dict_get k d = option_map text_obj (last_tagged t elems))
  /\ dict_get "category" d = list_field (category_texts elems)
  /\ (forall k, dict_get k d <> None ->
        k = "category" \/ exists t, In (t, k) fields).

(** The item elements of a channel element, in document order. *)
Definition item_children (c : Element) : list Element :=
  filter (has_tag "item") (children c).

(** Element [itm] has the record [d]. *)
Definition item_record (itm : Element) (d : dict) : Prop := parse_item itm = Ok d.

(** All the elements of a document, the root included, in document order. *)
Fixpoint elements (e : Element) : list Element :=
  match e with
  | Elem _ _ cs => e :: flat_map elements cs
  end.

(** The elements of the document tagged [t], at any depth. *)
Definition elements_tagged (t : string) (tree : Element) : list Element :=
  filter (has_tag t) (elements tree).

(** An element without children. *)
Definition leaf (t : string) (x : option string) : Element := Elem t x [].

(** ** Sample documents *)

(** [<rss><channel><title>Example</title><link>http://x</link>
    <item><title>A</title></item><item><title>B</title></item>
    </channel></rss>] (on one line) *)
Definition example_channel : list Element :=
  [leaf "title" (Some "Example"); leaf "link" (Some "http://x");
   Elem "item" None [leaf "title" (Some "A")];
   Elem "item" None [leaf "title" (Some "B")]].

Definition example_feed : Element :=
  Elem "rss" None [Elem "channel" None example_channel].

Definition example_xml : string :=
  "<rss><channel><title>Example</title><link>http://x</link><item><title>A</title></item><item><title>B</title></item></channel></rss>".

(** [<rss><channel><title>T</title><link>L</link>
    <category>a</category><category/></channel></rss>] *)
Definition null_category_feed : Element :=
  Elem "rss" None
    [Elem "channel" None
       [leaf "title" (Some "T"); leaf "link" (Some "L");
        leaf "category" (Some "a"); leaf "category" None]].

(** [<rss><channel><category/></channel></rss>] *)
Definition untitled_feed : Element :=
  Elem "rss" None [Elem "channel" None [leaf "category" None]].

(** [<rss><channel><pubDate>mon</pubDate><pudDate>tue</pudDate>
    <item><pubDate>wed</pubDate></item></channel></rss>] *)
Definition pubdate_feed : Element :=
  Elem "rss" None
    [Elem "channel" None
       [leaf "pubDate" (Some "mon"); leaf "pudDate" (Some "tue");
        Elem "item" None [leaf "pubDate" (Some "wed")]]].

(** [<channel><title>T</title></channel>]: the channel element is the
    root of the document. *)
Definition root_channel_doc : Element :=
  Elem "channel" None [leaf "title" (Some "T")].

Definition root_channel_xml : string := "<channel><title>T</title></channel>".

(** [<feed><title>T</title></feed>]: no channel element at all. *)
Definition no_channel_doc : Element :=
  Elem "feed" None [leaf "title" (Some "T")].

Definition no_channel_xml : string := "<feed><title>T</title></feed>".

(** Not well-formed: the element is never closed. *)
Definition malformed_xml : string := "<rss><channel>".

(** [<rss><extra><channel><title>N</title><item><title>X</title></item>
    </channel></extra><channel><title>D</title></channel></rss>]: two
    channel elements, the first one in document order not a child of the
    root. *)
Definition nested_channel : Element :=
  Elem "channel" None
    [leaf "title" (Some "N"); Elem "item" None [leaf "title" (Some "X")]].

Definition nested_channel_doc : Element :=
  Elem "rss" None
    [Elem "extra" None [nested_channel];
     Elem "channel" None [leaf "title" (Some "D")]].

(** [<rss><channel><title>A</title><item><title>X</title></item></channel>
    <channel><title>B</title><item><title>Y</title></item></channel></rss>] *)
Definition two_channel_doc : Element :=
  Elem "rss" None
    [Elem "channel" None
       [leaf "title" (Some "A"); Elem "item" None [leaf "title" (Some "X")]];
     Elem "channel" None
       [leaf "title" (Some "B"); Elem "item" None [leaf "title" (Some "Y")]]].

(** The graph of [ElT.fromstring] on the sample texts above; it serves to
    instantiate the parser in closed examples. *)
Definition sample_fromstring (xml : string) : option Element :=
  if xml =? example_xml then Some example_feed
  else if xml =? root_channel_xml then Some root_channel_doc
  else if xml =? no_channel_xml then Some no_channel_doc
  else None.

(** ** Trimmed text *)










(** ** The command-line entry point (lines 127-146) *)

(** The namespace returned by [parser.parse_args(argv)]: the positional
    [source] ([None] when it is left out, since [nargs="?"]), the flag
    [--json] and the integer option [--limit] ([None] when it is left
    out). *)
Record Args : Type := {
  source : option string;
  json : bool;
  limit : option Z;
}.

(** What the [except] clause of [main] catches: an exception of
    [rss_parser] or of the join of its lines, or an exception of [print]
    (a text the standard output cannot encode, a closed pipe). *)
Inductive caught (P : Type) : Type :=
| Rendering (e : exn)
| Printing (p : P).

Arguments Rendering {P} e.
Arguments Printing {P} p.

(** How [main] ends: it returns a status after printing to standard
    output, it raises [UnhandledException(e)], or an exception of the
    download, which happens before the [try], leaves it as it is. *)
Inductive outcome (E P : Type) : Type :=
| Returned (status : Z) (stdout : string)
| UnhandledException (e : caught P)
| Propagated (e : E).

Arguments Returned {E P} status stdout.
Arguments UnhandledException {E P} e.
Arguments Propagated {E P} e.

Section Main.

(** [ElT.fromstring], as for [rss_parser]. *)
Variable fromstring : string -> option Element.

(** The exceptions of the download and [requests.get(source).text]: the
    body of the response, or the exception raised. *)
Variable E : Type.
Variable get_text : option string -> E + string.

(** The exceptions of [print] and [print] itself: [None] when the text
    and a line break were written, or the exception raised. *)
Variable P : Type.
Variable print : string -> option P.

(** Lines 140-146, from the parsed arguments on.  The download is
    outside the [try]; the call of [rss_parser], the join of the lines and
    [print] are inside. *)
Definition main (args : Args) : outcome E P :=
  match get_text (source args) with
  | inr xml =>
      match (output <- rss_parser fromstring xml (limit args) (json args) ;;
             join (str1 newline) (PyList output)) with
      | Ok s =>
          match print s with
          | None => Returned 0 (s ++ str1 newline)
          | Some p => UnhandledException (Printing p)
          end
      | Raise e => UnhandledException (Rendering e)
      end
  | inl e => Propagated e
  end.

End Main.

(** ** More vocabulary *)

(** The parser known on one document only: [doc] has the tree [tree]. *)
Definition parsed_as (doc : string) (tree : Element) (xml : string)
  : option Element :=
  if xml =? doc then Some tree else None.


(** The tags the channel loop acts on. *)
Definition channel_tags : list string :=
  ["title"; "link"; "lastBuildDate"; "pudDate"; "language"; "category";
   "managingEditor"; "description"].

(** The tags the item loop acts on. *)
Definition item_tags : list string :=
  ["title"; "author"; "pubDate"; "link"; "category"; "description"].

Definition tag_in (tags : list string) (e : Element) : bool :=
  existsb (String.eqb (tag e)) tags.

(** The keys of a dict, in its order. *)
Definition keys (d : dict) : list string := map fst d.



(** The key order of the serialized mapping. *)
Definition json_keys : list string :=
  ["title"; "link"; "lastBuildDate"; "pubDate"; "language"; "category";
   "managingEditor"; "description"].

(** The lines of one item on their own. *)
Definition item_block (itm : dict) : result (list pyobj) := text_item [] itm.

(** The blocks of a list of items, one after the other. *)
Fixpoint item_blocks (items : list dict) : result (list pyobj) :=
  match items with
  | [] => Ok []
  | itm :: r =>
      b <- item_block itm ;; bs <- item_blocks r ;; Ok (b ++ bs)%list
  end.

(** What text mode needs of an item: a title, and categories that are
    all strings. *)
Definition item_renders (itm : dict) : Prop :=
  dict_get "title" itm <> None
  /\ forall v, dict_get "category" itm = Some v -> succeeds (join ", " v).


(** The number of the keys of [ks] present in [d]. *)
Definition count_present (ks : list string) (d : dict) : nat :=
  List.length (filter (fun k => contains k d) ks).

(** The channel keys text mode renders only when present, and the item
    keys likewise. *)
Definition optional_channel_keys : list string :=
  ["lastBuildDate"; "pubDate"; "language"; "category"; "managingEditor";
   "description"].

Definition optional_item_keys : list string :=
  ["author"; "pubDate"; "link"; "category"; "description"].


(** [<rss><channel><title/><link>L</link><item><title>A</title>
    <description/></item></channel></rss>]: a title and a description
    without text. *)
Definition empty_fields_feed : Element :=
  Elem "rss" None
    [Elem "channel" None
       [leaf "title" None; leaf "link" (Some "L");
        Elem "item" None [leaf "title" (Some "A"); leaf "description" None]]].

Definition empty_fields_xml : string :=
  "<rss><channel><title/><link>L</link><item><title>A</title><description/></item></channel></rss>".

(** A download that answers [empty_fields_xml] for the URL [u] and fails
    with the error [tt] for anything else. *)
Definition sample_get_text (src : option string) : unit + string :=
  match src with
  | Some "u" => inr empty_fields_xml
  | _ => inl tt
  end.

(** A standard output that encodes ASCII only: [print] raises, with the
    error [tt], on a text with a code point above 127. *)
Fixpoint is_ascii (s : string) : bool :=
  match s with
  | EmptyString => true
  | String c r => Nat.ltb (ord c) 128 && is_ascii r
  end.

Definition ascii_print (s : string) : option unit :=
  if is_ascii s then None else Some tt.

(** [<rss><channel><title>caf\xe9</title><link>L</link></channel></rss>],
    the title ending in the code point 233. *)
Definition accent_feed : Element :=
  Elem "rss" None
    [Elem "channel" None
       [leaf "title" (Some ("caf" ++ str1 (chr 233))); leaf "link" (Some "L")]].

Definition accent_xml : string :=
  "<rss><channel><title>caf" ++ str1 (chr 233)
  ++ "</title><link>L</link></channel></rss>".

(** * Properties *)

(** ** Loops and dicts *)

Lemma bind_ok {A B : Type} (m : result A) (k : A -> result B) (b : B) :
  bind m k = Ok b -> exists a, m = Ok a /\ k a = Ok b.
Proof.
  destruct m as [a|e]; simpl; intros H; [exists a; auto | discriminate].
Qed.

Lemma for_each_app {S A : Type} (body : S -> A -> result S) (l1 l2 : list A) (s : S) :
  for_each body (l1 ++ l2)%list s = (s' <- for_each body l1 s ;; for_each body l2 s').
Proof.
  revert s; induction l1 as [|x l1 IH]; intros s; simpl; [reflexivity|].
  destruct (body s x) as [s'|e]; simpl; [apply IH | reflexivity].
Qed.

Lemma for_each_snoc {S A : Type} (body : S -> A -> result S) (l : list A) (x : A) (s : S) :
  for_each body (l ++ [x])%list s = (s' <- for_each body l s ;; body s' x).
Proof.
  rewrite for_each_app. destruct (for_each body l s) as [s'|e]; simpl; [|reflexivity].
  destruct (body s' x); reflexivity.
Qed.

(** A loop fails as soon as its body fails on one element whatever the
    state it is entered with. *)
Lemma for_each_fails {S A : Type} (body : S -> A -> result S) (l : list A) (x : A) :
  In x l -> (forall s, fails (body s x)) -> forall s, fails (for_each body l s).
Proof.
  intros Hin Hx. induction l as [|y l IH]; intros s; [contradiction|].
  simpl. destruct Hin as [->|Hin].
  - destruct (Hx s) as [e ->]. exists e; reflexivity.
  - destruct (body s y) as [s'|e]; simpl; [apply IH, Hin | exists e; reflexivity].
Qed.

Lemma dict_get_set (k k' : string) (v : pyobj) (d : dict) :
  dict_get k (dict_set k' v d) = if k =? k' then Some v else dict_get k d.
Proof.
  induction d as [|[k0 v0] d IH]; simpl.
  - destruct (k =? k'); reflexivity.
  - destruct (String.eqb_spec k' k0) as [->|Hne]; simpl.
    + destruct (k =? k0); reflexivity.
    + rewrite IH. destruct (String.eqb_spec k k0) as [->|Hne'].
      * destruct (String.eqb_spec k0 k') as [E|_]; [congruence | reflexivity].
      * reflexivity.
Qed.

Lemma getitem_ok (d : dict) (k : string) (v : pyobj) :
  getitem d k = Ok v <-> dict_get k d = Some v.
Proof.
  unfold getitem; destruct (dict_get k d); split; intros H; congruence.
Qed.

Lemma getitem_missing (d : dict) (k : string) :
  dict_get k d = None -> getitem d k = Raise (KeyError k).
Proof. unfold getitem; intros ->; reflexivity. Qed.

(** ** Slices *)

Lemma slice_to_nonneg {A : Type} (l : list A) (n : Z) :
  (0 <= n)%Z -> slice_to l n = firstn (Z.to_nat n) l.
Proof.
  intros H. unfold slice_to. destruct (Z.ltb_spec n 0); [lia | reflexivity].
Qed.

Lemma slice_to_neg {A : Type} (l : list A) (n : Z) :
  (n < 0)%Z -> slice_to l n = firstn (List.length l - Z.to_nat (- n)) l.
Proof.
  intros H. unfold slice_to. destruct (Z.ltb_spec n 0); [|lia].
  f_equal. lia.
Qed.

Lemma select_items_none {A : Type} (item : list A) : select_items item None = item.
Proof. reflexivity. Qed.

Lemma select_items_zero {A : Type} (item : list A) :
  select_items item (Some 0%Z) = item.
Proof. reflexivity. Qed.

Lemma select_items_pos {A : Type} (item : list A) (n : Z) :
  (0 < n)%Z -> select_items item (Some n) = firstn (Z.to_nat n) item.
Proof.
  intros H. unfold select_items. destruct (Z.eqb_spec n 0); [lia|].
  apply slice_to_nonneg; lia.
Qed.

Lemma select_items_neg {A : Type} (item : list A) (n : Z) :
  (n < 0)%Z ->
  select_items item (Some n) = firstn (List.length item - Z.to_nat (- n)) item.
Proof.
  intros H. unfold select_items. destruct (Z.eqb_spec n 0); [lia|].
  apply slice_to_neg; lia.
Qed.


(** ** The embedding on examples *)

Lemma rss_parser_parsed (fromstring : string -> option Element) (xml : string)
  (tree : Element) (limit : option Z) (json : bool) :
  fromstring xml = Some tree ->
  rss_parser fromstring xml limit json = rss_parser_tree tree limit json.
Proof. intros H. unfold rss_parser. rewrite H. reflexivity. Qed.

Lemma rss_parser_not_well_formed (fromstring : string -> option Element)
  (xml : string) (limit : option Z) (json : bool) :
  fromstring xml = None ->
  rss_parser fromstring xml limit json = Raise ParseError.
Proof. intros H. unfold rss_parser. rewrite H. reflexivity. Qed.

Example strip_example :
  strip (String (chr 9) "  a b  " ++ str1 newline) = "a b".
Proof. reflexivity. Qed.

Example strip_blank_example : strip "   " = EmptyString.
Proof. reflexivity. Qed.

Example stripped_text_example :
  map stripped_text [leaf "category" (Some " a "); leaf "category" (Some "  ");
                     leaf "category" None; leaf "category" (Some EmptyString)]
  = [PyStr "a"; PyStr EmptyString; PyNone; PyNone].
Proof. reflexivity. Qed.

Example str_list_example :
  str (PyList [PyStr "x"; PyNone; PyStr "it's"])
  = "['x', None, " ++ String dquote "it's" ++ String dquote "]".
Proof. reflexivity. Qed.

Example repr_escape_example :
  repr_str (String backslash (String (chr 9) (String (chr 127) "'")) ++ str1 dquote)
  = "'" ++ String backslash (String backslash EmptyString)
    ++ String backslash "t" ++ String backslash "x7f"
    ++ String backslash "'" ++ String dquote "'".
Proof. reflexivity. Qed.

Example dict_order_example :
  dict_set "a" (PyStr "3") (dict_set "b" (PyStr "2") (dict_set "a" (PyStr "1") []))
  = [("a", PyStr "3"); ("b", PyStr "2")].
Proof. reflexivity. Qed.

Example slice_examples :
  slice_to [1; 2; 3; 4] (-1)%Z = [1; 2; 3]
  /\ slice_to [1; 2] (-5)%Z = []
  /\ slice_to [1; 2] 5%Z = [1; 2]
  /\ select_items [1; 2] (Some 0%Z) = [1; 2].
Proof. repeat split. Qed.

(** The JSON rendering of the sample feed with limit 1: one string, the
    document indented by two spaces. *)
Example example_feed_json :
  let q s := String dquote s ++ str1 dquote in
  let nl n := String newline (spaces n) in
  rss_parser_tree example_feed (Some 1%Z) true
  = Ok [PyStr ("{" ++ nl 2 ++ q "title" ++ ": " ++ q "Example" ++ ","
               ++ nl 2 ++ q "link" ++ ": " ++ q "http://x" ++ ","
               ++ nl 2 ++ q "items" ++ ": [" ++ nl 4 ++ "{"
               ++ nl 6 ++ q "title" ++ ": " ++ q "A"
               ++ nl 4 ++ "}" ++ nl 2 ++ "]" ++ nl 0 ++ "}")].
Proof. reflexivity. Qed.

Example json_escape_example :
  dumps (PyList [PyStr (String dquote (String backslash (String (chr 1) "e")));
                 PyNone; PyDict []; PyList []])
  = "[" ++ String newline "  "
    ++ String dquote (String backslash (String dquote
         (String backslash (String backslash (String backslash "u0001e")))))
    ++ String dquote ("," ++ String newline "  null,"
    ++ String newline "  {}," ++ String newline "  []" ++ String newline "]").
Proof. reflexivity. Qed.

(** ** Extraction builds the record of the children *)

Arguments last_tagged : simpl never.
Arguments category_texts : simpl never.

Lemma last_tagged_snoc (t : string) (elems : list Element) (e : Element) :
  last_tagged t (elems ++ [e])%list =
  if has_tag t e then Some e else last_tagged t elems.
Proof.
  unfold last_tagged, last_error. rewrite filter_app. simpl.
  destruct (has_tag t e).
  - rewrite rev_app_distr. reflexivity.
  - rewrite app_nil_r. reflexivity.
Qed.

Lemma category_texts_snoc (elems : list Element) (e : Element) :
  category_texts (elems ++ [e])%list =
  if has_tag "category" e
  then (category_texts elems ++ [stripped_text e])%list
  else category_texts elems.
Proof.
  unfold category_texts. rewrite filter_app. simpl.
  destruct (has_tag "category" e).
  - rewrite map_app. reflexivity.
  - rewrite app_nil_r. reflexivity.
Qed.


Lemma last_tagged_in (t : string) (elems : list Element) (e : Element) :
  last_tagged t elems = Some e ->
  exists before after,
    elems = (before ++ e :: after)%list /\ tag e = t
    /\ forall e', In e' after -> tag e' <> t.
Proof.
  induction elems as [|x elems IH] using rev_ind.
  - discriminate.
  - rewrite last_tagged_snoc. unfold has_tag.
    destruct (String.eqb_spec (tag x) t) as [E|E].
    + intros [= ->]. exists elems, []. split; [reflexivity|].
      split; [exact E | intros e' []].
    + intros H. destruct (IH H) as (before & after & -> & Ht & Hafter).
      exists before, (after ++ [x])%list. split.
      * rewrite <- app_assoc. reflexivity.
      * split; [exact Ht|]. intros e' Hin. apply in_app_or in Hin.
        destruct Hin as [Hin|[<-|[]]]; [apply Hafter, Hin | exact E].
Qed.

(** The [category] branch appends to the list stored under [category],
    creating it when the key is absent, and touches no other key. *)
Lemma add_category_lookup (d : dict) (e : Element) (l : list pyobj) :
  dict_get "category" d = list_field l ->
  exists d',
    add_category d e = Ok d'
    /\ forall k, dict_get k d' =
                 if k =? "category"
                 then Some (PyList (l ++ [stripped_text e])%list)
                 else dict_get k d.
Proof.
  intros H. unfold add_category, contains, dict_append, getitem.
  destruct l as [|x l]; unfold list_field in H.
  - rewrite H. simpl negb. cbv iota. rewrite dict_get_set. simpl.
    eexists; split; [reflexivity|]. intros k.
    rewrite !dict_get_set. destruct (k =? "category"); reflexivity.
  - rewrite H. simpl. rewrite H. simpl.
    eexists; split; [reflexivity|]. intros k.
    rewrite dict_get_set. reflexivity.
Qed.

Ltac in_fields :=
  simpl; repeat (first [left; reflexivity | right]).

Ltac field_cases Hin :=
  simpl in Hin;
  repeat (destruct Hin as [Hin|Hin]; [injection Hin as <- <- | ]);
  [ .. | contradiction ].

Lemma channel_step_spec (elems : list Element) (d : dict) (e : Element) :
  record_of channel_fields elems d ->
  exists d', channel_step d e = Ok d'
             /\ record_of channel_fields (elems ++ [e])%list d'.
Proof.
  intros (Hf & Hc & Hk). destruct e as [t x c].
  unfold channel_step, record_of. simpl tag.
  assert (Hadd := add_category_lookup d (Elem t x c) (category_texts elems) Hc).
  repeat match goal with
  | |- context [if String.eqb t ?lit then _ else _] =>
      let E := fresh "E" in
      destruct (String.eqb t lit) eqn:E; [apply String.eqb_eq in E; subst t | ]
  end.
  all: try (destruct Hadd as (d' & -> & Hd')).
  all: eexists; (split; [reflexivity|]).
  all: split; [| split].
  all: try (intros t0 k Hin;
            rewrite ?Hd', ?dict_get_set, last_tagged_snoc;
            unfold has_tag; simpl tag;
            field_cases Hin; simpl; rewrite ?E, ?E0, ?E1, ?E2, ?E3, ?E4, ?E5, ?E6;
            try reflexivity; apply Hf; in_fields).
  all: try (rewrite ?Hd', ?dict_get_set, category_texts_snoc;
            unfold has_tag; simpl;
            rewrite ?E, ?E0, ?E1, ?E2, ?E3, ?E4, ?E5, ?E6; simpl;
            solve [ exact Hc
                  | destruct (category_texts elems); reflexivity ]).
  all: intros k Hk'; rewrite ?Hd', ?dict_get_set in Hk';
       destruct (k =? "category") eqn:Hcat;
       [apply String.eqb_eq in Hcat; left; exact Hcat|];
       try (apply Hk; exact Hk');
       match type of Hk' with
       | context [String.eqb k ?lit] =>
           revert Hk'; destruct (String.eqb_spec k lit) as [->|Hne]; intros Hk';
           [right | apply Hk; exact Hk']
       end.
  all: eexists; in_fields.
Qed.

Lemma item_step_spec (elems : list Element) (d : dict) (e : Element) :
  record_of item_fields elems d ->
  exists d', item_step d e = Ok d'
             /\ record_of item_fields (elems ++ [e])%list d'.
Proof.
  intros (Hf & Hc & Hk). destruct e as [t x c].
  unfold item_step, record_of. simpl tag.
  assert (Hadd := add_category_lookup d (Elem t x c) (category_texts elems) Hc).
  repeat match goal with
  | |- context [if String.eqb t ?lit then _ else _] =>
      let E := fresh "E" in
      destruct (String.eqb t lit) eqn:E; [apply String.eqb_eq in E; subst t | ]
  end.
  all: cbn [String.eqb Ascii.eqb Bool.eqb].
  all: try (destruct Hadd as (d' & -> & Hd')).
  all: cbn [bind].
  all: eexists; (split; [reflexivity|]).
  all: split; [| split].
  all: try (intros t0 k Hin;
            rewrite ?Hd', ?dict_get_set, last_tagged_snoc;
            unfold has_tag; simpl tag;
            field_cases Hin; simpl; rewrite ?E, ?E0, ?E1, ?E2, ?E3, ?E4, ?E5, ?E6;
            try reflexivity; apply Hf; in_fields).
  all: try (rewrite ?Hd', ?dict_get_set, category_texts_snoc;
            unfold has_tag; simpl;
            rewrite ?E, ?E0, ?E1, ?E2, ?E3, ?E4, ?E5, ?E6; simpl;
            solve [ exact Hc
                  | destruct (category_texts elems); reflexivity ]).
  all: intros k Hk'; rewrite ?Hd', ?dict_get_set in Hk';
       destruct (k =? "category") eqn:Hcat;
       [apply String.eqb_eq in Hcat; left; exact Hcat|];
       try (apply Hk; exact Hk');
       match type of Hk' with
       | context [String.eqb k ?lit] =>
           revert Hk'; destruct (String.eqb_spec k lit) as [->|Hne]; intros Hk';
           [right | apply Hk; exact Hk']
       end.
  all: eexists; in_fields.
Qed.

Lemma record_of_nil (fields : list (string * string)) : record_of fields [] [].
Proof.
  split; [|split].
  - intros t k _. reflexivity.
  - reflexivity.
  - intros k H. exfalso. apply H. reflexivity.
Qed.

(** The loop over the children of the channel never raises and builds the
    record of these children. *)
Lemma parse_channel_spec (elems : list Element) :
  exists d, parse_channel elems = Ok d /\ record_of channel_fields elems d.
Proof.
  unfold parse_channel.
  induction elems as [|e elems IH] using rev_ind.
  - exists []. split; [reflexivity | apply record_of_nil].
  - destruct IH as (d & Hd & Hrec). rewrite for_each_snoc, Hd. simpl.
    apply channel_step_spec, Hrec.
Qed.

(** The same for the children of an item. *)
Lemma parse_item_spec (itm : Element) :
  exists d, parse_item itm = Ok d /\ record_of item_fields (children itm) d.
Proof.
  unfold parse_item.
  induction (children itm) as [|e elems IH] using rev_ind.
  - exists []. split; [reflexivity | apply record_of_nil].
  - destruct IH as (d & Hd & Hrec). rewrite for_each_snoc, Hd. simpl.
    apply item_step_spec, Hrec.
Qed.

(** The loop over the item elements builds one record per element, in
    the order of the elements. *)
Lemma items_loop_spec (itms : list Element) (acc : list dict) :
  exists item,
    for_each items_step itms acc = Ok (acc ++ item)%list
    /\ Forall2 (fun itm d => parse_item itm = Ok d) itms item.
Proof.
  revert acc. induction itms as [|itm itms IH]; intros acc.
  - exists []. rewrite app_nil_r. split; [reflexivity | constructor].
  - destruct (parse_item_spec itm) as (d & Hd & _).
    destruct (IH (acc ++ [d])%list) as (item & Hitem & Hall).
    exists (d :: item). simpl. unfold items_step at 1. rewrite Hd. simpl.
    rewrite Hitem, <- app_assoc. split; [reflexivity|].
    constructor; assumption.
Qed.

(** Extraction from a tree whose root has a child tagged [channel]. *)
Lemma extract_spec (tree c : Element) :
  find ["channel"] tree = Some c ->
  exists channel item,
    extract tree = Ok (channel, item)
    /\ parse_channel (children c) = Ok channel
    /\ Forall2 (fun itm d => parse_item itm = Ok d)
         (findall ["channel"; "item"] tree) item.
Proof.
  intros Hc. unfold extract. rewrite Hc. simpl.
  destruct (parse_channel_spec (children c)) as (channel & Hch & _).
  destruct (items_loop_spec (findall ["channel"; "item"] tree) []) as (item & Hit & Hall).
  exists channel, item. rewrite Hch. simpl. simpl in Hit. rewrite Hit. simpl.
  repeat split; assumption.
Qed.

Lemma extract_no_channel (tree : Element) :
  find ["channel"] tree = None -> extract tree = Raise TypeError.
Proof. intros H. unfold extract. rewrite H. reflexivity. Qed.

Lemma extract_ok_inv (tree : Element) (channel : dict) (item : list dict) :
  extract tree = Ok (channel, item) ->
  exists c, find ["channel"] tree = Some c
            /\ parse_channel (children c) = Ok channel
            /\ Forall2 (fun itm d => parse_item itm = Ok d)
                 (findall ["channel"; "item"] tree) item.
Proof.
  intros H. destruct (find ["channel"] tree) as [c|] eqn:Hc.
  - destruct (extract_spec tree c Hc) as (ch & it & Hex & Hch & Hit).
    rewrite Hex in H. injection H as <- <-. exists c. repeat split; assumption.
  - rewrite (extract_no_channel tree Hc) in H. discriminate.
Qed.

(** ** Item selection *)

Lemma Forall2_firstn {A B : Type} (R : A -> B -> Prop) (n : nat) (l1 : list A) (l2 : list B) :
  Forall2 R l1 l2 -> Forall2 R (firstn n l1) (firstn n l2).
Proof.
  intros H. revert n. induction H as [|x y l1 l2 Hxy H IH]; intros [|n]; simpl;
    constructor; auto.
Qed.


Lemma rss_parser_tree_extracted (tree : Element) (channel : dict) (item : list dict)
  (limit : option Z) (json : bool) :
  extract tree = Ok (channel, item) ->
  rss_parser_tree tree limit json = render channel item limit json.
Proof. intros H. unfold rss_parser_tree. rewrite H. reflexivity. Qed.



(** ** The channel categories *)

Lemma all_str_strings (ss : list string) : all_str (map PyStr ss) = Ok ss.
Proof.
  induction ss as [|s ss IH]; simpl; [reflexivity|]. rewrite IH. reflexivity.
Qed.

Lemma all_str_null (l : list pyobj) : In PyNone l -> all_str l = Raise TypeError.
Proof.
  induction l as [|o l IH]; intros Hin; [contradiction|].
  simpl. destruct o as [|s|l'|d']; try reflexivity.
  simpl. destruct Hin as [Hin|Hin]; [discriminate|].
  rewrite (IH Hin). reflexivity.
Qed.

Lemma all_str_ok (l : list pyobj) (ss : list string) :
  all_str l = Ok ss -> l = map PyStr ss.
Proof.
  revert ss. induction l as [|o l IH]; intros ss H.
  - injection H as <-. reflexivity.
  - simpl in H. destruct o as [|s|l'|d']; try discriminate.
    simpl in H. destruct (all_str l) as [ss'|e]; [|discriminate].
    injection H as <-. simpl. rewrite (IH ss' eq_refl). reflexivity.
Qed.

(** A separator-joined list with a null element raises. *)
Lemma join_null (sep : string) (l : list pyobj) :
  In PyNone l -> join sep (PyList l) = Raise TypeError.
Proof. intros H. simpl. rewrite (all_str_null l H). reflexivity. Qed.

Lemma join_strings (sep : string) (ss : list string) :
  join sep (PyList (map PyStr ss)) = Ok (String.concat sep ss).
Proof. simpl. rewrite all_str_strings. reflexivity. Qed.

Lemma json_data_category (channel : dict) (item : list dict) (limit : option Z)
  (data : dict) (v : pyobj) :
  dict_get "category" channel = Some v ->
  json_data channel item limit = Ok data ->
  exists s, join EmptyString v = Ok s /\ dict_get "category" data = Some (PyStr s).
Proof.
  intros Hv. unfold json_data. rewrite Hv. intros H.
  apply bind_ok in H. destruct H as (d0 & H0 & H). injection H as <-.
  apply bind_ok in H0. destruct H0 as (s & Hs & H0). injection H0 as <-.
  exists s. split; [exact Hs|].
  unfold copy_field.
  repeat match goal with
         | |- context [dict_get ?k channel] =>
             lazymatch k with
             | "category" => fail
             | _ => destruct (dict_get k channel)
             end
         end;
    rewrite !dict_get_set; reflexivity.
Qed.

(** When every category of the channel has a text, JSON mode stores their
    concatenation, without a delimiter, under [category]. *)
Lemma json_category_concatenation (channel : dict) (item : list dict)
  (limit : option Z) (ss : list string) :
  dict_get "category" channel = Some (PyList (map PyStr ss)) ->
  exists data, json_data channel item limit = Ok data
               /\ dict_get "category" data = Some (PyStr (String.concat EmptyString ss)).
Proof.
  intros Hv.
  assert (Hok : exists data, json_data channel item limit = Ok data).
  { unfold json_data. rewrite Hv, join_strings. simpl. eexists; reflexivity. }
  destruct Hok as (data & Hdata). exists data. split; [exact Hdata|].
  destruct (json_data_category _ _ _ _ _ Hv Hdata) as (s & Hs & Hget).
  rewrite join_strings in Hs. injection Hs as <-. exact Hget.
Qed.

(** A channel category without text makes JSON mode raise. *)
Lemma json_category_null_raises (channel : dict) (item : list dict)
  (limit : option Z) (l : list pyobj) :
  dict_get "category" channel = Some (PyList l) ->
  In PyNone l ->
  render_json channel item limit = Raise TypeError.
Proof.
  intros Hv Hnull. unfold render_json, json_data.
  rewrite Hv, (join_null _ _ Hnull). reflexivity.
Qed.

(** Text mode renders the channel categories as [str] of the list. *)
Lemma text_header_categories (channel : dict) (l : list pyobj) (output : list pyobj) :
  dict_get "category" channel = Some (PyList l) ->
  text_header channel = Ok output ->
  In (PyStr ("Categories: [" ++ String.concat ", " (map repr l) ++ "]")) output.
Proof.
  intros Hv. unfold text_header. intros H.
  apply bind_ok in H. destruct H as (title & _ & H).
  apply bind_ok in H. destruct H as (link & _ & H).
  injection H as <-.
  assert (Hin : forall label k d out x, In x out -> In x (append_field label k d out)).
  { intros label k d out x Hx. unfold append_field.
    destruct (dict_get k d); [apply in_or_app; left|]; exact Hx. }
  apply Hin, Hin. unfold append_field at 1. rewrite Hv.
  apply in_or_app. right. left. reflexivity.
Qed.

(** C2. On the feed whose channel has the categories [a] and an empty
    [<category/>], extraction stores the sequence [['a', None]]; text mode
    renders it with the default rendering of the list, and JSON mode, which
    should render the concatenation of the texts, raises a TypeError
    instead. *)
Theorem json_category_join_fails_on_null :
  (exists item,
      extract null_category_feed
      = Ok ([("title", PyStr "T"); ("link", PyStr "L");
             ("category", PyList [PyStr "a"; PyNone])], item))
  /\ rss_parser_tree null_category_feed None false
     = Ok [PyStr "Feed: T"; PyStr "Link: L"; PyStr "Categories: ['a', None]"]
  /\ rss_parser_tree null_category_feed None true = Raise TypeError.
Proof.
  split; [eexists; reflexivity | split; reflexivity].
Qed.

(** ** The publication date *)

Lemma channel_step_pubDate (d : dict) (e : Element) :
  has_tag "pubDate" e = true -> channel_step d e = Ok d.
Proof.
  unfold has_tag. intros H. apply String.eqb_eq in H.
  unfold channel_step. rewrite H. reflexivity.
Qed.

(** The channel loop does not see the children tagged [pubDate]. *)
Lemma parse_channel_ignores_pubDate (elems : list Element) :
  parse_channel (filter (fun e => negb (has_tag "pubDate" e)) elems)
  = parse_channel elems.
Proof.
  unfold parse_channel. generalize (@nil (string * pyobj)).
  induction elems as [|e elems IH]; intros d; [reflexivity|].
  simpl. destruct (has_tag "pubDate" e) eqn:E; simpl.
  - rewrite (channel_step_pubDate d e E). simpl. apply IH.
  - destruct (channel_step d e); simpl; [apply IH | reflexivity].
Qed.

(** C3. For every document with a channel, the [pubDate] field of the
    channel record is the text of the last child of the channel tagged
    [pudDate], and is absent without such a child; the children tagged
    [pubDate] are ignored (the record is the one of the channel without
    them); the [pubDate] field of every item record is the text of the last
    child of the item tagged [pubDate]. *)
Theorem channel_pubDate_read_from_pudDate (tree c : Element) :
  find ["channel"] tree = Some c ->
  exists channel item,
    extract tree = Ok (channel, item)
    /\ dict_get "pubDate" channel
       = option_map text_obj (last_tagged "pudDate" (children c))
    /\ parse_channel (filter (fun e => negb (has_tag "pubDate" e)) (children c))
       = Ok channel
    /\ Forall2 (fun itm d =>
                  dict_get "pubDate" d
                  = option_map text_obj (last_tagged "pubDate" (children itm)))
         (findall ["channel"; "item"] tree) item.
Proof.
  intros Hc. destruct (extract_spec tree c Hc) as (channel & item & Hex & Hch & Hit).
  exists channel, item. split; [exact Hex|].
  destruct (parse_channel_spec (children c)) as (d & Hd & Hf & _).
  rewrite Hch in Hd. injection Hd as <-.
  split; [apply Hf; in_fields|].
  split; [rewrite parse_channel_ignores_pubDate; exact Hch|].
  eapply Forall2_impl; [|exact Hit].
  intros itm d Hd. destruct (parse_item_spec itm) as (d' & Hd' & Hf' & _).
  rewrite Hd in Hd'. injection Hd' as <-. apply Hf'. in_fields.
Qed.

Lemma channel_pubDate_read_from_pudDate_witness :
  exists channel item,
    extract pubdate_feed = Ok (channel, item)
    /\ dict_get "pubDate" channel = Some (PyStr "tue").
Proof.
  destruct (channel_pubDate_read_from_pudDate pubdate_feed
              (Elem "channel" None
                 [leaf "pubDate" (Some "mon"); leaf "pudDate" (Some "tue");
                  Elem "item" None [leaf "pubDate" (Some "wed")]])
              eq_refl)
    as (channel & item & Hex & Hpub & _).
  exists channel, item. split; [exact Hex | exact Hpub].
Defined.

(** ** Last occurrence wins, categories accumulate *)

Lemma filter_none {A : Type} (p : A -> bool) (l : list A) :
  (forall x, In x l -> p x = false) -> filter p l = [].
Proof.
  induction l as [|x l IH]; intros H; [reflexivity|].
  simpl. rewrite (H x (or_introl eq_refl)). apply IH.
  intros y Hy. apply H. right. exact Hy.
Qed.


Lemma filter_nonempty (t : string) (elems : list Element) :
  filter (has_tag t) elems <> [] <-> exists e, In e elems /\ tag e = t.
Proof.
  split.
  - intros H. destruct (filter (has_tag t) elems) as [|e l] eqn:E; [contradiction|].
    assert (Hin : In e (filter (has_tag t) elems)) by (rewrite E; left; reflexivity).
    apply filter_In in Hin. destruct Hin as (Hin & Ht).
    exists e. split; [exact Hin | apply String.eqb_eq, Ht].
  - intros (e & Hin & Ht) E.
    assert (Hin' : In e (filter (has_tag t) elems)).
    { apply filter_In. split; [exact Hin | apply String.eqb_eq, Ht]. }
    rewrite E in Hin'. exact Hin'.
Qed.

(** *** Trimming *)







Lemma append_assoc (a b c : string) : (a ++ b) ++ c = a ++ (b ++ c).
Proof. induction a as [|x a IH]; simpl; [reflexivity | rewrite IH; reflexivity]. Qed.







(** ** Missing title or link *)

Lemma text_missing_title (channel : dict) (item : list dict) (limit : option Z) :
  dict_get "title" channel = None ->
  render_text channel item limit = Raise (KeyError "title").
Proof.
  intros H. unfold render_text, text_header.
  rewrite (getitem_missing _ _ H). reflexivity.
Qed.

Lemma text_missing_link (channel : dict) (item : list dict) (limit : option Z) :
  dict_get "title" channel <> None ->
  dict_get "link" channel = None ->
  render_text channel item limit = Raise (KeyError "link").
Proof.
  intros Ht Hl. unfold render_text, text_header.
  rewrite (getitem_missing _ _ Hl). unfold getitem.
  destruct (dict_get "title" channel); [reflexivity | contradiction].
Qed.

(** JSON mode never looks a key up without testing for it: it succeeds
    whenever the channel categories, if any, are all strings. *)
Lemma json_succeeds_without_null_category (channel : dict) (item : list dict)
  (limit : option Z) :
  (forall v, dict_get "category" channel = Some v ->
             exists ss, v = PyList (map PyStr ss)) ->
  succeeds (render_json channel item limit).
Proof.
  intros Hcat. unfold render_json, json_data.
  destruct (dict_get "category" channel) as [v|].
  - destruct (Hcat v eq_refl) as (ss & ->). rewrite join_strings. simpl.
    eexists; reflexivity.
  - simpl. eexists; reflexivity.
Qed.

(** C4. On the feed whose channel has neither title nor link but an empty
    [<category/>], text mode raises the KeyError of the missing title, and
    JSON mode, which includes title and link only when present and should
    succeed, raises a TypeError at the join of the categories. *)
Theorem json_fails_on_untitled_null_category :
  (exists item, extract untitled_feed = Ok ([("category", PyList [PyNone])], item))
  /\ rss_parser_tree untitled_feed None false = Raise (KeyError "title")
  /\ rss_parser_tree untitled_feed None true = Raise TypeError.
Proof.
  split; [eexists; reflexivity | split; reflexivity].
Qed.

(** ** Failures of extraction *)

Lemma flat_map_singleton {A : Type} (l : list A) : flat_map (fun x => [x]) l = l.
Proof. induction l as [|x l IH]; simpl; [reflexivity | rewrite IH; reflexivity]. Qed.

Lemma findall_tag (t : string) (e : Element) :
  findall [t] e = filter (has_tag t) (children e).
Proof. simpl. apply flat_map_singleton. Qed.

Lemma findall_channel_item (tree : Element) :
  findall ["channel"; "item"] tree
  = flat_map item_children (filter (has_tag "channel") (children tree)).
Proof.
  simpl. apply flat_map_ext. intros c. apply flat_map_singleton.
Qed.

Lemma find_child (t : string) (tree c : Element) :
  In c (children tree) -> tag c = t -> exists c', find [t] tree = Some c'.
Proof.
  intros Hin Ht. unfold find. rewrite findall_tag.
  destruct (filter (has_tag t) (children tree)) as [|c' l] eqn:E.
  - exfalso. apply (proj2 (filter_nonempty t (children tree))); [|exact E].
    exists c. split; assumption.
  - exists c'. reflexivity.
Qed.

Lemma find_no_child (t : string) (tree : Element) :
  (forall e, In e (children tree) -> tag e <> t) -> find [t] tree = None.
Proof.
  intros H. unfold find. rewrite findall_tag, filter_none; [reflexivity|].
  intros x Hx. apply String.eqb_neq, H, Hx.
Qed.

Lemma elements_head (e : Element) : In e (elements e).
Proof. destruct e; simpl; left; reflexivity. Qed.

Lemma child_in_elements (tree c : Element) :
  In c (children tree) -> In c (elements tree).
Proof.
  destruct tree as [t x cs]. simpl. intros Hin. right.
  apply in_flat_map. exists c. split; [exact Hin | apply elements_head].
Qed.

Lemma no_element_no_child (t : string) (tree : Element) :
  elements_tagged t tree = [] -> forall e, In e (children tree) -> tag e <> t.
Proof.
  intros H e Hin Ht.
  assert (Hin' : In e (elements_tagged t tree)).
  { apply filter_In. split; [apply child_in_elements, Hin | apply String.eqb_eq, Ht]. }
  rewrite H in Hin'. exact Hin'.
Qed.

(** C6, as stated, fails: the document [<channel><title>T</title></channel>]
    is well formed and contains a channel element, its root, and
    extraction raises a TypeError on it. *)
Lemma root_channel_extraction_fails :
  elements_tagged "channel" root_channel_doc = [root_channel_doc]
  /\ extract root_channel_doc = Raise TypeError
  /\ ~ succeeds (extract root_channel_doc)
  /\ rss_parser sample_fromstring root_channel_xml None false = Raise TypeError
  /\ rss_parser sample_fromstring root_channel_xml None true = Raise TypeError.
Proof.
  split; [reflexivity|]. split; [reflexivity|].
  split; [intros (a & H); discriminate H|].
  split; reflexivity.
Qed.

(** C6, amended. [rss_parser] raises, and returns nothing, when the input
    is not well-formed XML (a ParseError) and when the root of the document
    has no child tagged [channel] (the TypeError of iterating [None]), in
    particular when the document has no channel element at all; when the
    root has a child tagged [channel], extraction does not fail. *)
Theorem rss_parser_failure_modes (fromstring : string -> option Element)
  (xml : string) (limit : option Z) (json : bool) :
  (fromstring xml = None ->
   rss_parser fromstring xml limit json = Raise ParseError)
  /\ (forall tree,
         fromstring xml = Some tree ->
         (forall e, In e (children tree) -> tag e <> "channel") ->
         rss_parser fromstring xml limit json = Raise TypeError)
  /\ (forall tree,
         fromstring xml = Some tree ->
         elements_tagged "channel" tree = [] ->
         rss_parser fromstring xml limit json = Raise TypeError)
  /\ (forall tree c,
         fromstring xml = Some tree ->
         In c (children tree) -> tag c = "channel" ->
         succeeds (extract tree)).
Proof.
  assert (Hnone : forall tree,
             fromstring xml = Some tree ->
             (forall e, In e (children tree) -> tag e <> "channel") ->
             rss_parser fromstring xml limit json = Raise TypeError).
  { intros tree Hp Hno. unfold rss_parser, rss_parser_tree. rewrite Hp.
    rewrite (extract_no_channel tree (find_no_child _ _ Hno)). reflexivity. }
  split; [|split; [|split]].
  - intros Hp. unfold rss_parser. rewrite Hp. reflexivity.
  - exact Hnone.
  - intros tree Hp Hno. apply (Hnone tree Hp), no_element_no_child, Hno.
  - intros tree c _ Hin Ht. destruct (find_child _ _ _ Hin Ht) as (c' & Hc').
    destruct (extract_spec tree c' Hc') as (channel & item & Hex & _).
    exists (channel, item). exact Hex.
Qed.

Lemma rss_parser_failure_modes_witness :
  rss_parser sample_fromstring malformed_xml None false = Raise ParseError
  /\ rss_parser sample_fromstring no_channel_xml None false = Raise TypeError
  /\ succeeds (extract example_feed).
Proof.
  split; [|split].
  - destruct (rss_parser_failure_modes sample_fromstring malformed_xml None false)
      as (H & _).
    apply H. reflexivity.
  - destruct (rss_parser_failure_modes sample_fromstring no_channel_xml None false)
      as (_ & H & _).
    apply (H no_channel_doc); [reflexivity|].
    intros e [<-|[]]. discriminate.
  - destruct (rss_parser_failure_modes sample_fromstring example_xml None false)
      as (_ & _ & _ & H).
    apply (H example_feed (Elem "channel" None example_channel)).
    + reflexivity.
    + left. reflexivity.
    + reflexivity.
Defined.

(** ** The worked example *)

(** C7. On the document whose channel is
    [<title>Example</title><link>http://x</link><item><title>A</title></item>
    <item><title>B</title></item>], with limit 1 in text mode, the result
    is the six lines [Feed: Example], [Link: http://x], a blank line (the
    one-space string the program emits), [Title: A], and two more blank
    lines; there is no description line and nothing for item B. *)
Theorem example_feed_text_limit_one (fromstring : string -> option Element)
  (xml root : string) (root_text channel_text : option string) :
  fromstring xml
  = Some (Elem root root_text [Elem "channel" channel_text example_channel]) ->
  rss_parser fromstring xml (Some 1%Z) false
  = Ok [PyStr "Feed: Example"; PyStr "Link: http://x"; PyStr " ";
        PyStr "Title: A"; PyStr " "; PyStr " "].
Proof.
  intros H. unfold rss_parser. rewrite H. reflexivity.
Qed.

Lemma example_feed_text_limit_one_witness :
  rss_parser sample_fromstring example_xml (Some 1%Z) false
  = Ok [PyStr "Feed: Example"; PyStr "Link: http://x"; PyStr " ";
        PyStr "Title: A"; PyStr " "; PyStr " "].
Proof.
  apply (example_feed_text_limit_one sample_fromstring example_xml "rss" None None).
  reflexivity.
Defined.

(** ** Negative limits *)



(** ** Null categories of an item *)

Lemma text_item_null_category (output : list pyobj) (itm : dict) (l : list pyobj) :
  dict_get "category" itm = Some (PyList l) ->
  In PyNone l ->
  text_item output itm
  = match dict_get "title" itm with
    | Some _ => Raise TypeError
    | None => Raise (KeyError "title")
    end.
Proof.
  intros Hc Hnull. unfold text_item, getitem.
  destruct (dict_get "title" itm) as [title|]; [|reflexivity].
  simpl. rewrite Hc. rewrite (join_null _ _ Hnull). reflexivity.
Qed.

Lemma text_item_ok_category (output out : list pyobj) (itm : dict) (v : pyobj) :
  dict_get "category" itm = Some v ->
  text_item output itm = Ok out ->
  succeeds (join ", " v).
Proof.
  intros Hc. unfold text_item. rewrite Hc. intros H.
  apply bind_ok in H. destruct H as (title & _ & H).
  apply bind_ok in H. destruct H as (out' & H & _).
  apply bind_ok in H. destruct H as (s & Hs & _).
  exists s. exact Hs.
Qed.

(** C9. When a selected item has a category sequence with a null element,
    the join of its categories with [", "] raises a TypeError and text mode
    raises: the body of the loop raises on this item whatever was rendered
    before, with the TypeError of the join as soon as the item has a
    title.  The lines of an item with a category field are produced only
    when every element of its category sequence is a string. *)
Theorem text_mode_raises_on_null_item_category (itm : dict) (l : list pyobj) :
  dict_get "category" itm = Some (PyList l) ->
  (In PyNone l ->
   join ", " (PyList l) = Raise TypeError
   /\ (forall output, fails (text_item output itm))
   /\ (forall output,
          dict_get "title" itm <> None ->
          text_item output itm = Raise TypeError)
   /\ (forall channel item limit,
          In itm (select_items item limit) ->
          fails (render_text channel item limit))
   /\ (forall channel item limit output before after,
          text_header channel = Ok output ->
          select_items item limit = (before ++ itm :: after)%list ->
          succeeds (for_each text_item before output) ->
          dict_get "title" itm <> None ->
          render_text channel item limit = Raise TypeError))
  /\ (forall output out,
         text_item output itm = Ok out ->
         ~ In PyNone l /\ exists ss, l = map PyStr ss).
Proof.
  intros Hc. split.
  - intros Hnull.
    assert (Hbody : forall output, fails (text_item output itm)).
    { intros output. rewrite (text_item_null_category output itm l Hc Hnull).
      destruct (dict_get "title" itm); eexists; reflexivity. }
    assert (Htitle : forall output, dict_get "title" itm <> None ->
                                    text_item output itm = Raise TypeError).
    { intros output Ht. rewrite (text_item_null_category output itm l Hc Hnull).
      destruct (dict_get "title" itm); [reflexivity | contradiction]. }
    split; [apply join_null, Hnull|]. split; [exact Hbody|].
    split; [exact Htitle|]. split.
    + intros channel item limit Hin. unfold render_text.
      destruct (text_header channel) as [output|e]; simpl.
      * apply (for_each_fails text_item _ itm Hin Hbody).
      * exists e. reflexivity.
    + intros channel item limit output before after Hh Hsel (out & Hb) Ht.
      unfold render_text. rewrite Hh, Hsel. simpl.
      rewrite for_each_app, Hb. simpl. rewrite (Htitle out Ht). reflexivity.
  - intros output out Hok.
    destruct (text_item_ok_category output out itm _ Hc Hok) as (s & Hs).
    simpl in Hs. apply bind_ok in Hs. destruct Hs as (ss & Hss & _).
    split.
    + intros Hnull. rewrite (all_str_null l Hnull) in Hss. discriminate.
    + exists ss. apply all_str_ok, Hss.
Qed.

Lemma text_mode_raises_on_null_item_category_witness :
  join ", " (PyList [PyStr "a"; PyNone]) = Raise TypeError
  /\ render_text [("title", PyStr "T"); ("link", PyStr "L")]
       [[("title", PyStr "A"); ("category", PyList [PyStr "a"; PyNone])]] None
     = Raise TypeError.
Proof.
  destruct (text_mode_raises_on_null_item_category
              [("title", PyStr "A"); ("category", PyList [PyStr "a"; PyNone])]
              [PyStr "a"; PyNone] eq_refl) as (H & _).
  destruct H as (Hjoin & _ & _ & _ & Hrender).
  - right. left. reflexivity.
  - split; [exact Hjoin|].
    apply (Hrender _ _ None [PyStr "Feed: T"; PyStr "Link: L"] [] []).
    + reflexivity.
    + reflexivity.
    + exists [PyStr "Feed: T"; PyStr "Link: L"]. reflexivity.
    + discriminate.
Defined.

(** ** Several channels *)

(** C10, as stated, fails: [nested_channel_doc] contains two channel
    elements, and the first one in document order, with the title N and the
    item X, is not a child of the root; the channel record is built from
    the second one, with the title D, and the item sequence is empty, where
    the claim has the record of the first channel and the item X. *)
Lemma nested_channel_not_visited :
  elements_tagged "channel" nested_channel_doc
  = [nested_channel; Elem "channel" None [leaf "title" (Some "D")]]
  /\ parse_channel (children nested_channel) = Ok [("title", PyStr "N")]
  /\ flat_map item_children (elements_tagged "channel" nested_channel_doc)
     = [Elem "item" None [leaf "title" (Some "X")]]
  /\ extract nested_channel_doc = Ok ([("title", PyStr "D")], []).
Proof. repeat split. Qed.

(** C10, amended. When the root of the document has more than one child
    tagged [channel], the channel record is built from the children of the
    first of them only, and the item sequence holds the records of the item
    children of every one of them, in document order; channel elements that
    are not children of the root contribute nothing. *)
Theorem first_channel_record_all_channels_items (tree c1 c2 : Element)
  (others : list Element) :
  filter (has_tag "channel") (children tree) = c1 :: c2 :: others ->
  exists channel item,
    extract tree = Ok (channel, item)
    /\ parse_channel (children c1) = Ok channel
    /\ Forall2 item_record
         (flat_map item_children (c1 :: c2 :: others)) item.
Proof.
  intros Hch.
  assert (Hfind : find ["channel"] tree = Some c1)
    by (unfold find; rewrite findall_tag, Hch; reflexivity).
  destruct (extract_spec tree c1 Hfind) as (channel & item & Hex & Hc & Hit).
  exists channel, item. split; [exact Hex|]. split; [exact Hc|].
  rewrite findall_channel_item, Hch in Hit. exact Hit.
Qed.

Lemma first_channel_record_all_channels_items_witness :
  extract two_channel_doc
  = Ok ([("title", PyStr "A")], [[("title", PyStr "X")]; [("title", PyStr "Y")]])
  /\ exists channel item,
       extract two_channel_doc = Ok (channel, item)
       /\ parse_channel
            [leaf "title" (Some "A"); Elem "item" None [leaf "title" (Some "X")]]
          = Ok channel.
Proof.
  split; [reflexivity|].
  destruct (first_channel_record_all_channels_items two_channel_doc
              (Elem "channel" None
                 [leaf "title" (Some "A");
                  Elem "item" None [leaf "title" (Some "X")]])
              (Elem "channel" None
                 [leaf "title" (Some "B");
                  Elem "item" None [leaf "title" (Some "Y")]])
              [] eq_refl)
    as (channel & item & Hex & Hc & _).
  exists channel, item. split; [exact Hex | exact Hc].
Defined.

(** * Further properties of the code *)

(** ** Unrecognized tags *)

Lemma channel_step_unrecognized (d : dict) (e : Element) :
  tag_in channel_tags e = false -> channel_step d e = Ok d.
Proof.
  unfold tag_in, channel_tags, channel_step. simpl existsb. intros H.
  repeat match goal with
         | |- context [if String.eqb (tag e) ?lit then _ else _] =>
             destruct (String.eqb (tag e) lit); [discriminate H|]
         end.
  reflexivity.
Qed.

Lemma item_step_unrecognized (d : dict) (e : Element) :
  tag_in item_tags e = false -> item_step d e = Ok d.
Proof.
  unfold tag_in, item_tags, item_step. simpl existsb. intros H.
  repeat match goal with
         | |- context [if String.eqb (tag e) ?lit then _ else _] =>
             destruct (String.eqb (tag e) lit); [discriminate H|]
         end.
  reflexivity.
Qed.

Lemma for_each_filter {S A : Type} (body : S -> A -> result S) (p : A -> bool)
  (l : list A) :
  (forall s x, p x = false -> body s x = Ok s) ->
  forall s, for_each body (filter p l) s = for_each body l s.
Proof.
  intros Hskip. induction l as [|x l IH]; intros s; [reflexivity|].
  simpl. destruct (p x) eqn:E; simpl.
  - destruct (body s x); simpl; [apply IH | reflexivity].
  - rewrite (Hskip s x E). simpl. apply IH.
Qed.

(** X1. Children whose tag is not one of the tags the loops test are
    skipped: the channel record and every item record are those of the
    element with these children removed, so unknown elements, and known
    ones at the wrong level ([author] in the channel, [language] in an
    item), change neither the values nor the order of the keys. *)
Theorem unrecognized_children_are_ignored (elems : list Element)
  (t : string) (x : option string) :
  parse_channel (filter (tag_in channel_tags) elems) = parse_channel elems
  /\ parse_item (Elem t x (filter (tag_in item_tags) elems))
     = parse_item (Elem t x elems).
Proof.
  split.
  - apply for_each_filter. intros s e. apply channel_step_unrecognized.
  - unfold parse_item. simpl children.
    apply for_each_filter. intros s e. apply item_step_unrecognized.
Qed.

(** ** The exceptions that can be raised *)

Lemma all_str_raises (l : list pyobj) (e : exn) :
  all_str l = Raise e -> e = TypeError.
Proof.
  induction l as [|o l IH]; simpl; [discriminate|].
  destruct o as [|s|l'|d']; simpl; try (intros [= <-]; reflexivity).
  destruct (all_str l) as [ss|e']; simpl; [discriminate|].
  intros [= <-]. apply IH. reflexivity.
Qed.

Lemma join_raises (sep : string) (o : pyobj) (e : exn) :
  join sep o = Raise e -> e = TypeError.
Proof.
  destruct o as [|s|l|d]; simpl; try discriminate.
  - intros [= <-]. reflexivity.
  - destruct (all_str l) as [ss|e'] eqn:E; simpl; [discriminate|].
    intros [= <-]. apply (all_str_raises l e' E).
Qed.

Lemma extract_raises (tree : Element) (e : exn) :
  extract tree = Raise e -> e = TypeError.
Proof.
  intros H. destruct (find ["channel"] tree) as [c|] eqn:Hc.
  - destruct (extract_spec tree c Hc) as (ch & it & Hex & _). congruence.
  - rewrite (extract_no_channel tree Hc) in H. congruence.
Qed.

Lemma render_json_raises (channel : dict) (item : list dict) (limit : option Z)
  (e : exn) :
  render_json channel item limit = Raise e -> e = TypeError.
Proof.
  unfold render_json, json_data.
  destruct (dict_get "category" channel) as [v|]; simpl; [|discriminate].
  destruct (join EmptyString v) as [s|e'] eqn:E; simpl; [discriminate|].
  intros [= <-]. apply (join_raises _ _ _ E).
Qed.

Lemma text_header_raises (channel : dict) (e : exn) :
  text_header channel = Raise e -> e = KeyError "title" \/ e = KeyError "link".
Proof.
  unfold text_header, getitem.
  destruct (dict_get "title" channel); simpl; [|intros [= <-]; left; reflexivity].
  destruct (dict_get "link" channel); simpl; [discriminate|].
  intros [= <-]. right. reflexivity.
Qed.

Lemma text_item_raises (output : list pyobj) (itm : dict) (e : exn) :
  text_item output itm = Raise e -> e = KeyError "title" \/ e = TypeError.
Proof.
  unfold text_item, getitem.
  destruct (dict_get "title" itm); simpl; [|intros [= <-]; left; reflexivity].
  destruct (dict_get "category" itm) as [v|]; simpl; [|discriminate].
  destruct (join ", " v) as [s|e'] eqn:E; simpl; [discriminate|].
  intros [= <-]. right. apply (join_raises _ _ _ E).
Qed.

Lemma for_each_raises {S A : Type} (body : S -> A -> result S) (P : exn -> Prop)
  (l : list A) :
  (forall s x e, body s x = Raise e -> P e) ->
  forall s e, for_each body l s = Raise e -> P e.
Proof.
  intros Hbody. induction l as [|x l IH]; intros s e; simpl; [discriminate|].
  destruct (body s x) as [s'|e'] eqn:E; simpl.
  - apply IH.
  - intros [= <-]. apply (Hbody s x e' E).
Qed.

Lemma render_text_raises (channel : dict) (item : list dict) (limit : option Z)
  (e : exn) :
  render_text channel item limit = Raise e ->
  e = TypeError \/ e = KeyError "title" \/ e = KeyError "link".
Proof.
  unfold render_text.
  destruct (text_header channel) as [output|e'] eqn:E; simpl.
  - intros H.
    apply (for_each_raises text_item
             (fun e => e = TypeError \/ e = KeyError "title" \/ e = KeyError "link"))
      in H; [exact H|].
    intros s x e0 H0. destruct (text_item_raises s x e0 H0) as [->| ->]; auto.
  - intros [= <-]. right. apply (text_header_raises channel e' E).
Qed.

Lemma rss_parser_tree_raises (tree : Element) (limit : option Z) (json : bool)
  (e : exn) :
  rss_parser_tree tree limit json = Raise e ->
  e = TypeError
  \/ (json = false /\ (e = KeyError "title" \/ e = KeyError "link")).
Proof.
  intros H. unfold rss_parser_tree in H.
  destruct (extract tree) as [[channel item]|e'] eqn:E; simpl in H.
  - destruct json; simpl in H.
    + left. apply (render_json_raises _ _ _ _ H).
    + destruct (render_text_raises _ _ _ _ H) as [->|H']; [left; reflexivity|].
      right. split; [reflexivity | exact H'].
  - injection H as <-. left. apply (extract_raises tree e' E).
Qed.

(** X2. From the parsed tree on (lines 34-124), whatever the document,
    the limit and the mode, [rss_parser] raises nothing but a TypeError or,
    in text mode only, the KeyError of [title] or of [link]; extraction
    raises only when the root has no channel child; the AttributeError of
    appending to a value that is not a list cannot occur, because the
    [category] key only ever holds a list. *)
Theorem parsed_document_raises_only (tree : Element) (limit : option Z)
  (json : bool) (e : exn) :
  rss_parser_tree tree limit json = Raise e ->
  (e = TypeError
   \/ (json = false /\ (e = KeyError "title" \/ e = KeyError "link")))
  /\ e <> AttributeError
  /\ (forall c, find ["channel"] tree = Some c -> succeeds (extract tree))
  /\ (find ["channel"] tree = None -> e = TypeError).
Proof.
  intros H. split; [|split; [|split]].
  - apply (rss_parser_tree_raises tree limit json e H).
  - destruct (rss_parser_tree_raises tree limit json e H)
      as [->|(_ & [->| ->])]; discriminate.
  - intros c Hc. destruct (extract_spec tree c Hc) as (ch & it & Hex & _).
    exists (ch, it). exact Hex.
  - intros Hc. unfold rss_parser_tree in H.
    rewrite (extract_no_channel tree Hc) in H. simpl in H. congruence.
Qed.

Lemma parsed_document_raises_only_witness :
  (KeyError "title" = TypeError
   \/ (false = false
       /\ (KeyError "title" = KeyError "title"
           \/ KeyError "title" = KeyError "link")))
  /\ KeyError "title" <> AttributeError.
Proof.
  destruct (parsed_document_raises_only untitled_feed (Some 2%Z) false
              (KeyError "title") eq_refl) as (H1 & H2 & _).
  split; [exact H1 | exact H2].
Defined.

(** ** The selection for any limit *)

Lemma select_items_prefix {A : Type} (item : list A) (limit : option Z) :
  exists rest, item = (select_items item limit ++ rest)%list.
Proof.
  destruct limit as [L|]; [|exists []; rewrite app_nil_r; reflexivity].
  destruct (Z.eqb_spec L 0) as [->|Hne].
  - exists []. rewrite app_nil_r. reflexivity.
  - destruct (Z.ltb_spec L 0) as [Hneg|Hpos].
    + rewrite (select_items_neg item L Hneg).
      eexists. symmetry. apply firstn_skipn.
    + rewrite (select_items_pos item L) by lia.
      eexists. symmetry. apply firstn_skipn.
Qed.

(** X3. For every limit, the selected items are a prefix of the items:
    nothing is reordered, repeated or skipped.  A positive limit L selects
    min(L, N) items, so a limit of N or more selects all of them, and a
    negative limit of -N or less selects none. *)
Theorem selection_is_a_prefix (A : Type) (item : list A) (limit : option Z) :
  (exists rest, item = (select_items item limit ++ rest)%list)
  /\ (forall L, limit = Some L -> (0 < L)%Z ->
        List.length (select_items item limit)
        = Nat.min (Z.to_nat L) (List.length item))
  /\ (forall L, limit = Some L -> (Z.of_nat (List.length item) <= L)%Z ->
        select_items item limit = item)
  /\ (forall L, limit = Some L -> (L < 0)%Z ->
        (L <= - Z.of_nat (List.length item))%Z ->
        select_items item limit = []).
Proof.
  split; [|split; [|split]].
  - apply select_items_prefix.
  - intros L -> HL. rewrite (select_items_pos item L HL). apply length_firstn.
  - intros L -> HL. destruct (Z.eqb_spec L 0) as [->|Hne]; [reflexivity|].
    rewrite (select_items_pos item L) by lia.
    apply firstn_all2. lia.
  - intros L -> Hneg HL. rewrite (select_items_neg item L Hneg).
    replace (List.length item - Z.to_nat (- L)) with 0 by lia. reflexivity.
Qed.

Lemma selection_is_a_prefix_witness :
  List.length (select_items [1; 2; 3] (Some 5%Z)) = Nat.min 5 3
  /\ select_items [1; 2; 3] (Some 5%Z) = [1; 2; 3]
  /\ select_items [1; 2; 3] (Some (-4)%Z) = [].
Proof.
  destruct (selection_is_a_prefix nat [1; 2; 3] (Some 5%Z)) as (_ & H1 & H2 & _).
  destruct (selection_is_a_prefix nat [1; 2; 3] (Some (-4)%Z)) as (_ & _ & _ & H3).
  split; [|split].
  - apply (H1 5%Z); [reflexivity | lia].
  - apply (H2 5%Z); [reflexivity | simpl; lia].
  - apply (H3 (-4)%Z); [reflexivity | lia | simpl; lia].
Defined.

(** ** When JSON mode succeeds *)

Lemma stripped_text_cases (e : Element) :
  stripped_text e = PyNone \/ exists s, stripped_text e = PyStr s.
Proof.
  unfold stripped_text. destruct (text e) as [[|c r]|]; auto.
  right. eexists. reflexivity.
Qed.

Lemma stripped_text_null (e : Element) :
  stripped_text e = PyNone <-> text e = None \/ text e = Some EmptyString.
Proof.
  unfold stripped_text. destruct (text e) as [[|c r]|]; split; auto.
  - discriminate.
  - intros [H|H]; discriminate H.
Qed.

Lemma texts_without_null (l : list Element) :
  ~ In PyNone (map stripped_text l) ->
  exists ss, map stripped_text l = map PyStr ss.
Proof.
  induction l as [|e l IH]; intros H; [exists []; reflexivity|].
  simpl in *. destruct (stripped_text_cases e) as [E|(s & E)].
  - exfalso. apply H. left. exact E.
  - destruct IH as (ss & Hss); [intros Hin; apply H; right; exact Hin|].
    exists (s :: ss). rewrite E, Hss. reflexivity.
Qed.

Lemma category_texts_null (elems : list Element) :
  In PyNone (category_texts elems) <->
  exists e, In e elems /\ tag e = "category"
            /\ (text e = None \/ text e = Some EmptyString).
Proof.
  unfold category_texts. rewrite in_map_iff. split.
  - intros (e & He & Hin). apply filter_In in Hin. destruct Hin as (Hin & Ht).
    exists e. split; [exact Hin|]. split; [apply String.eqb_eq, Ht|].
    apply stripped_text_null, He.
  - intros (e & Hin & Ht & Hx). exists e. split; [apply stripped_text_null, Hx|].
    apply filter_In. split; [exact Hin | apply String.eqb_eq, Ht].
Qed.

Lemma json_mode_null_category (tree c : Element) (limit : option Z) :
  find ["channel"] tree = Some c ->
  In PyNone (category_texts (children c)) ->
  rss_parser_tree tree limit true = Raise TypeError.
Proof.
  intros Hc Hnull.
  destruct (extract_spec tree c Hc) as (channel & item & Hex & Hch & _).
  destruct (parse_channel_spec (children c)) as (d & Hd & _ & Hcat & _).
  rewrite Hch in Hd. injection Hd as <-.
  rewrite (rss_parser_tree_extracted _ _ _ limit true Hex). simpl render.
  apply (json_category_null_raises _ _ _ (category_texts (children c))).
  - rewrite Hcat. destruct (category_texts (children c)); [contradiction|reflexivity].
  - exact Hnull.
Qed.

Lemma json_mode_with_texts (tree c : Element) (limit : option Z) :
  find ["channel"] tree = Some c ->
  ~ In PyNone (category_texts (children c)) ->
  exists s, rss_parser_tree tree limit true = Ok [PyStr s].
Proof.
  intros Hc Hnn.
  destruct (extract_spec tree c Hc) as (channel & item & Hex & Hch & _).
  destruct (parse_channel_spec (children c)) as (d & Hd & _ & Hcat & _).
  rewrite Hch in Hd. injection Hd as <-.
  rewrite (rss_parser_tree_extracted _ _ _ limit true Hex). simpl render.
  destruct (texts_without_null _ Hnn) as (ss & Hss).
  fold (category_texts (children c)) in Hss.
  destruct (json_succeeds_without_null_category channel item limit) as (out & Hout).
  - intros v Hv. rewrite Hcat, Hss in Hv. exists ss.
    destruct (map PyStr ss); [discriminate | injection Hv as <-; reflexivity].
  - unfold render_json in *. destruct (json_data channel item limit); simpl in *.
    + eexists. reflexivity.
    + discriminate.
Qed.

(** X4. In JSON mode, on a document whose root has a channel child, the
    outcome depends on the category children of that channel only:
    [rss_parser] raises a TypeError when one of them has no text, and
    otherwise returns exactly one string, whatever the items contain (a
    missing title, empty categories) and whatever the limit. *)
Theorem json_mode_outcome (tree c : Element) (limit : option Z) :
  find ["channel"] tree = Some c ->
  ((exists e, In e (children c) /\ tag e = "category"
              /\ (text e = None \/ text e = Some EmptyString)) ->
   rss_parser_tree tree limit true = Raise TypeError)
  /\ (~ (exists e, In e (children c) /\ tag e = "category"
                   /\ (text e = None \/ text e = Some EmptyString)) ->
      exists s, rss_parser_tree tree limit true = Ok [PyStr s]).
Proof.
  intros Hc. rewrite <- category_texts_null. split.
  - apply (json_mode_null_category tree c limit Hc).
  - apply (json_mode_with_texts tree c limit Hc).
Qed.

Lemma json_mode_outcome_witness :
  rss_parser_tree null_category_feed (Some 3%Z) true = Raise TypeError.
Proof.
  destruct (json_mode_outcome null_category_feed
              (Elem "channel" None
                 [leaf "title" (Some "T"); leaf "link" (Some "L");
                  leaf "category" (Some "a"); leaf "category" None])
              (Some 3%Z) eq_refl) as (H & _).
  apply H. exists (leaf "category" None).
  split; [right; right; right; left; reflexivity|].
  split; [reflexivity | left; reflexivity].
Defined.

(** ** The structure of the text output *)

Lemma text_item_block (output : list pyobj) (itm : dict) :
  text_item output itm = (b <- item_block itm ;; Ok (output ++ b)%list).
Proof.
  unfold item_block, text_item, append_field, getitem.
  destruct (dict_get "title" itm); [|reflexivity].
  destruct (dict_get "author" itm), (dict_get "pubDate" itm),
    (dict_get "link" itm), (dict_get "description" itm);
    (destruct (dict_get "category" itm) as [v|];
     [destruct (join ", " v)|]); simpl; rewrite <- ?app_assoc; reflexivity.
Qed.

Lemma for_each_text_item (items : list dict) (output : list pyobj) :
  for_each text_item items output
  = (bs <- item_blocks items ;; Ok (output ++ bs)%list).
Proof.
  revert output. induction items as [|itm items IH]; intros output; simpl.
  - rewrite app_nil_r. reflexivity.
  - rewrite text_item_block. destruct (item_block itm) as [b|e]; simpl; [|reflexivity].
    rewrite IH. destruct (item_blocks items) as [bs|e]; simpl; [|reflexivity].
    rewrite app_assoc. reflexivity.
Qed.

Lemma render_text_blocks (channel : dict) (item : list dict) (limit : option Z) :
  render_text channel item limit
  = (header <- text_header channel ;;
     bs <- item_blocks (select_items item limit) ;;
     Ok (header ++ bs)%list).
Proof.
  unfold render_text. destruct (text_header channel) as [header|e]; simpl; [|reflexivity].
  apply for_each_text_item.
Qed.

Lemma item_blocks_app (l1 l2 : list dict) :
  item_blocks (l1 ++ l2)%list
  = (b1 <- item_blocks l1 ;; b2 <- item_blocks l2 ;; Ok (b1 ++ b2)%list).
Proof.
  induction l1 as [|itm l1 IH]; simpl.
  - destruct (item_blocks l2); reflexivity.
  - destruct (item_block itm) as [b|e]; simpl; [|reflexivity].
    rewrite IH. destruct (item_blocks l1) as [b1|e]; simpl; [|reflexivity].
    destruct (item_blocks l2) as [b2|e]; simpl; [|reflexivity].
    rewrite app_assoc. reflexivity.
Qed.

(** X5. The lines of an item do not depend on what was rendered before
    it: the text output is the header followed by the blocks of the
    selected items.  So when text mode succeeds without a limit, it
    succeeds with every limit, and the output with the limit is a prefix of
    the output without. *)
Theorem text_limit_truncates_output (channel : dict) (item : list dict)
  (out : list pyobj) :
  render_text channel item None = Ok out ->
  forall limit,
  exists header blocks rest,
    text_header channel = Ok header
    /\ item_blocks (select_items item limit) = Ok blocks
    /\ render_text channel item limit = Ok (header ++ blocks)%list
    /\ out = ((header ++ blocks) ++ rest)%list.
Proof.
  intros Hall limit.
  destruct (select_items_prefix item limit) as (others & Hsplit).
  rewrite render_text_blocks in Hall. rewrite render_text_blocks.
  destruct (text_header channel) as [header|e]; simpl in *; [|discriminate].
  rewrite Hsplit, item_blocks_app in Hall.
  destruct (item_blocks (select_items item limit)) as [blocks|e]; simpl in *;
    [|discriminate].
  destruct (item_blocks others) as [rest|e]; simpl in *; [|discriminate].
  injection Hall as <-. exists header, blocks, rest.
  rewrite app_assoc. repeat split.
Qed.

Lemma text_limit_truncates_output_witness :
  exists header blocks rest,
    text_header [("title", PyStr "T"); ("link", PyStr "L")] = Ok header
    /\ item_blocks (select_items [[("title", PyStr "A")]; [("title", PyStr "B")]]
                      (Some 1%Z)) = Ok blocks
    /\ render_text [("title", PyStr "T"); ("link", PyStr "L")]
         [[("title", PyStr "A")]; [("title", PyStr "B")]] (Some 1%Z)
       = Ok (header ++ blocks)%list
    /\ [PyStr "Feed: T"; PyStr "Link: L"; PyStr " "; PyStr "Title: A"; PyStr " ";
        PyStr " "; PyStr " "; PyStr "Title: B"; PyStr " "; PyStr " "]
       = ((header ++ blocks) ++ rest)%list.
Proof.
  apply (text_limit_truncates_output
           [("title", PyStr "T"); ("link", PyStr "L")]
           [[("title", PyStr "A")]; [("title", PyStr "B")]]).
  reflexivity.
Defined.

(** ** When text mode succeeds *)

Lemma item_block_succeeds (itm : dict) :
  succeeds (item_block itm) <-> item_renders itm.
Proof.
  unfold item_block, text_item, item_renders, getitem. split.
  - intros (b & H). destruct (dict_get "title" itm); [|discriminate].
    split; [discriminate|]. intros v Hv. rewrite Hv in H. simpl in H.
    destruct (join ", " v) as [s|e]; [exists s; reflexivity | discriminate].
  - intros (Ht & Hc). destruct (dict_get "title" itm); [|contradiction].
    simpl. destruct (dict_get "category" itm) as [v|]; simpl.
    + destruct (Hc v eq_refl) as (s & ->). simpl. eexists. reflexivity.
    + eexists. reflexivity.
Qed.

Lemma item_blocks_succeeds (items : list dict) :
  succeeds (item_blocks items) <-> Forall item_renders items.
Proof.
  induction items as [|itm items IH]; simpl.
  - split; [constructor | exists []; reflexivity].
  - split.
    + intros (bs & H). apply bind_ok in H. destruct H as (b & Hb & H).
      apply bind_ok in H. destruct H as (bs' & Hbs & _).
      constructor.
      * apply item_block_succeeds. exists b. exact Hb.
      * apply IH. exists bs'. exact Hbs.
    + intros H. inversion H as [|x l Hx Hl]; subst.
      apply item_block_succeeds in Hx. destruct Hx as (b & ->).
      apply IH in Hl. destruct Hl as (bs & ->). simpl. eexists. reflexivity.
Qed.

(** X6. Text mode succeeds if and only if the channel record has a title
    and a link and every selected item has a title and, when it has
    categories, only strings among them.  Items beyond the limit are not
    looked at, so a limit can hide an item that would make the whole
    rendering fail. *)
Theorem text_mode_succeeds_iff (channel : dict) (item : list dict)
  (limit : option Z) :
  succeeds (render_text channel item limit)
  <-> dict_get "title" channel <> None
      /\ dict_get "link" channel <> None
      /\ Forall item_renders (select_items item limit).
Proof.
  rewrite render_text_blocks, <- item_blocks_succeeds.
  unfold text_header, getitem. split.
  - intros (out & H).
    destruct (dict_get "title" channel); [|discriminate].
    destruct (dict_get "link" channel); [|discriminate].
    simpl in H. split; [discriminate|]. split; [discriminate|].
    destruct (item_blocks (select_items item limit)) as [bs|e];
      [exists bs; reflexivity | discriminate].
  - intros (Ht & Hl & (bs & Hbs)).
    destruct (dict_get "title" channel); [|contradiction].
    destruct (dict_get "link" channel); [|contradiction].
    simpl. rewrite Hbs. simpl. eexists. reflexivity.
Qed.

(** ** The number of lines *)

Lemma text_header_length (channel : dict) (header : list pyobj) :
  text_header channel = Ok header ->
  List.length header = 2 + count_present optional_channel_keys channel.
Proof.
  unfold text_header, append_field, count_present, optional_channel_keys,
    contains, getitem.
  destruct (dict_get "title" channel); [|discriminate].
  destruct (dict_get "link" channel); [|discriminate].
  simpl.
  destruct (dict_get "lastBuildDate" channel), (dict_get "pubDate" channel),
    (dict_get "language" channel), (dict_get "category" channel),
    (dict_get "managingEditor" channel), (dict_get "description" channel);
    intros [= <-]; reflexivity.
Qed.

Lemma item_block_length (itm : dict) (b : list pyobj) :
  item_block itm = Ok b ->
  List.length b = 4 + count_present optional_item_keys itm.
Proof.
  unfold item_block, text_item, append_field, count_present, optional_item_keys,
    contains, getitem.
  destruct (dict_get "title" itm); [|discriminate].
  simpl.
  destruct (dict_get "author" itm), (dict_get "pubDate" itm),
    (dict_get "link" itm), (dict_get "description" itm);
    (destruct (dict_get "category" itm) as [v|];
     [destruct (join ", " v)|]); simpl; try discriminate;
    intros [= <-]; reflexivity.
Qed.

Lemma item_blocks_length (items : list dict) (bs : list pyobj) :
  item_blocks items = Ok bs ->
  List.length bs
  = list_sum (map (fun itm => 4 + count_present optional_item_keys itm) items).
Proof.
  revert bs. induction items as [|itm items IH]; intros bs; simpl.
  - intros [= <-]. reflexivity.
  - intros H. apply bind_ok in H. destruct H as (b & Hb & H).
    apply bind_ok in H. destruct H as (bs' & Hbs & H). injection H as <-.
    rewrite length_app, (item_block_length itm b Hb), (IH bs' Hbs). reflexivity.
Qed.

(** X7. When text mode succeeds, the number of lines is 2, plus one per
    optional channel field present, plus, for every selected item, 4 and
    one per optional item field present: between 4 and 9 lines for an
    item. *)
Theorem text_output_length (channel : dict) (item : list dict)
  (limit : option Z) (out : list pyobj) :
  render_text channel item limit = Ok out ->
  List.length out
  = 2 + count_present optional_channel_keys channel
    + list_sum (map (fun itm => 4 + count_present optional_item_keys itm)
                  (select_items item limit)).
Proof.
  rewrite render_text_blocks. intros H.
  apply bind_ok in H. destruct H as (header & Hh & H).
  apply bind_ok in H. destruct H as (bs & Hbs & H). injection H as <-.
  rewrite length_app, (text_header_length _ _ Hh), (item_blocks_length _ _ Hbs).
  reflexivity.
Qed.

Lemma text_output_length_witness :
  List.length [PyStr "Feed: Example"; PyStr "Link: http://x"; PyStr " ";
               PyStr "Title: A"; PyStr " "; PyStr " "]
  = 2 + count_present optional_channel_keys
          [("title", PyStr "Example"); ("link", PyStr "http://x")]
    + list_sum (map (fun itm => 4 + count_present optional_item_keys itm)
                  (select_items [[("title", PyStr "A")]; [("title", PyStr "B")]]
                     (Some 1%Z))).
Proof.
  apply (text_output_length
           [("title", PyStr "Example"); ("link", PyStr "http://x")]
           [[("title", PyStr "A")]; [("title", PyStr "B")]] (Some 1%Z)).
  reflexivity.
Defined.

(** ** The top level of the JSON document *)

Lemma json_data_keys (channel : dict) (item : list dict) (limit : option Z)
  (data : dict) :
  json_data channel item limit = Ok data ->
  keys data = (filter (fun k => contains k channel) json_keys ++ ["items"])%list.
Proof.
  unfold json_data, copy_field, json_keys, contains, keys.
  cbn [filter].
  repeat match goal with
         | |- context [dict_get ?k channel] => destruct (dict_get k channel)
         end;
    repeat match goal with
           | |- context [join ?s ?v] => destruct (join s v)
           end;
    simpl; intros H; try discriminate H; injection H as <-; reflexivity.
Qed.

Lemma dict_get_copy_field (k k' : string) (channel data : dict) :
  dict_get k (copy_field k' channel data)
  = if k =? k'
    then match dict_get k' channel with
         | Some v => Some v
         | None => dict_get k data
         end
    else dict_get k data.
Proof.
  unfold copy_field. destruct (dict_get k' channel) eqn:E.
  - rewrite dict_get_set. reflexivity.
  - destruct (k =? k'); reflexivity.
Qed.

Lemma json_data_fields (channel : dict) (item : list dict) (limit : option Z)
  (data : dict) (k : string) :
  json_data channel item limit = Ok data ->
  In k json_keys -> k <> "category" ->
  dict_get k data = dict_get k channel.
Proof.
  unfold json_data. cbv zeta. intros H Hin Hk.
  apply bind_ok in H. destruct H as (data0 & H0 & H). injection H as <-.
  rewrite dict_get_set, !dict_get_copy_field.
  assert (H1 : dict_get k data0
               = dict_get k
                   (copy_field "language" channel
                      (copy_field "pubDate" channel
                         (copy_field "lastBuildDate" channel
                            (copy_field "link" channel
                               (copy_field "title" channel [])))))).
  { destruct (dict_get "category" channel) as [v|].
    - apply bind_ok in H0. destruct H0 as (s & _ & H0). injection H0 as <-.
      rewrite dict_get_set.
      destruct (String.eqb_spec k "category") as [E|_]; [contradiction|].
      reflexivity.
    - injection H0 as <-. reflexivity. }
  rewrite H1, !dict_get_copy_field.
  simpl in Hin.
  repeat (destruct Hin as [Hin|Hin]; [subst k|]); try contradiction;
    try (exfalso; apply Hk; reflexivity);
    cbn [String.eqb Ascii.eqb Bool.eqb];
    repeat match goal with
           | |- context [dict_get ?k0 channel] => destruct (dict_get k0 channel)
           end; reflexivity.
Qed.

(** X8. The mapping serialized in JSON mode has the channel fields that
    are present, always in the order title, link, lastBuildDate, pubDate,
    language, category, managingEditor, description whatever their order
    in the document, followed by [items], which is always there; every
    field but [category] has the value of the channel record. *)
Theorem json_top_level_keys (channel : dict) (item : list dict)
  (limit : option Z) (data : dict) :
  json_data channel item limit = Ok data ->
  keys data = (filter (fun k => contains k channel) json_keys ++ ["items"])%list
  /\ forall k, In k json_keys -> k <> "category" ->
               dict_get k data = dict_get k channel.
Proof.
  intros H. split.
  - apply (json_data_keys _ _ _ _ H).
  - intros k. apply (json_data_fields _ _ _ _ _ H).
Qed.

Lemma json_top_level_keys_witness :
  keys [("title", PyStr "T"); ("description", PyStr "D"); ("items", PyList [])]
  = (filter (fun k => contains k [("description", PyStr "D"); ("title", PyStr "T")])
       json_keys ++ ["items"])%list.
Proof.
  apply (json_top_level_keys
           [("description", PyStr "D"); ("title", PyStr "T")] [] None).
  reflexivity.
Defined.

(** ** The order of the keys of a record *)










Example record_keys_example :
  option_map keys
    (match parse_item (Elem "item" None
                         [leaf "link" None; leaf "guid" None; leaf "title" None;
                          leaf "category" None; leaf "link" None;
                          leaf "category" None])
     with Ok d => Some d | Raise _ => None end)
  = Some ["link"; "title"; "category"].
Proof. reflexivity. Qed.

(** ** Trimmed categories *)






(** ** The first lines of the text output *)

(** X11. When text mode succeeds on a document, its first two lines are
    [Feed: ] and [Link: ] followed by the texts of the last title and the
    last link child of the channel; an element without text, such as
    [<title/>], counts as present and is rendered as the word None. *)
Theorem text_output_first_lines (tree c : Element) (limit : option Z)
  (out : list pyobj) :
  find ["channel"] tree = Some c ->
  rss_parser_tree tree limit false = Ok out ->
  exists t l rest,
    last_tagged "title" (children c) = Some t
    /\ last_tagged "link" (children c) = Some l
    /\ out = PyStr ("Feed: " ++ str (text_obj t))
             :: PyStr ("Link: " ++ str (text_obj l)) :: rest
    /\ (text t = None -> str (text_obj t) = "None")
    /\ (forall s, text t = Some s -> str (text_obj t) = s).
Proof.
  intros Hc Hout.
  destruct (extract_spec tree c Hc) as (channel & item & Hex & Hch & _).
  destruct (parse_channel_spec (children c)) as (d & Hd & Hf & _).
  rewrite Hch in Hd. injection Hd as <-.
  rewrite (rss_parser_tree_extracted _ _ _ limit false Hex) in Hout.
  simpl render in Hout. rewrite render_text_blocks in Hout.
  apply bind_ok in Hout. destruct Hout as (header & Hh & Hout).
  apply bind_ok in Hout. destruct Hout as (bs & _ & Hout). injection Hout as <-.
  unfold text_header, getitem in Hh.
  rewrite (Hf "title" "title"), (Hf "link" "link") in Hh by in_fields.
  destruct (last_tagged "title" (children c)) as [t|]; [|discriminate].
  destruct (last_tagged "link" (children c)) as [l|]; [|discriminate].
  simpl in Hh. injection Hh as <-.
  exists t, l.
  match goal with
  | |- exists rest, _ /\ _ /\ ?o = _ /\ _ => exists (tl (tl o))
  end.
  split; [reflexivity|]. split; [reflexivity|].
  split; [|split].
  - unfold append_field.
    repeat match goal with
           | |- context [dict_get ?k channel] => destruct (dict_get k channel)
           end; simpl; reflexivity.
  - intros Ht. unfold text_obj. rewrite Ht. reflexivity.
  - intros s Ht. unfold text_obj. rewrite Ht. reflexivity.
Qed.

Lemma text_output_first_lines_witness :
  exists t l rest,
    last_tagged "title" (children (Elem "channel" None
       [leaf "title" None; leaf "link" (Some "L");
        Elem "item" None [leaf "title" (Some "A"); leaf "description" None]]))
    = Some t
    /\ last_tagged "link" (children (Elem "channel" None
       [leaf "title" None; leaf "link" (Some "L");
        Elem "item" None [leaf "title" (Some "A"); leaf "description" None]]))
       = Some l
    /\ [PyStr "Feed: None"; PyStr "Link: L"; PyStr " "; PyStr "Title: A";
        PyStr " "; PyNone; PyStr " "]
       = PyStr ("Feed: " ++ str (text_obj t))
         :: PyStr ("Link: " ++ str (text_obj l)) :: rest
    /\ (text t = None -> str (text_obj t) = "None")
    /\ (forall s, text t = Some s -> str (text_obj t) = s).
Proof.
  apply (text_output_first_lines empty_fields_feed _ None); reflexivity.
Defined.

(** ** The entry point *)

Section MainProperties.

Variable fromstring : string -> option Element.
Variable E : Type.
Variable get_text : option string -> E + string.
Variable P : Type.
Variable print : string -> option P.

Lemma main_downloaded (args : Args) (xml : string) :
  get_text (source args) = inr xml ->
  main fromstring E get_text P print args
  = match (output <- rss_parser fromstring xml (limit args) (json args) ;;
           join (str1 newline) (PyList output)) with
    | Ok s =>
        match print s with
        | None => Returned 0 (s ++ str1 newline)
        | Some p => UnhandledException (Printing p)
        end
    | Raise e => UnhandledException (Rendering e)
    end.
Proof. intros H. unfold main. rewrite H. reflexivity. Qed.

(** X12. [main] returns, always with the status 0, exactly when the
    download succeeds, [rss_parser] returns, every line it returns is a
    string, and [print] does not raise on the lines joined by line breaks;
    what is written is then that text and one more line break. *)
Theorem main_returns_iff (args : Args) (status : Z) (stdout : string) :
  main fromstring E get_text P print args = Returned status stdout
  <-> exists xml lines,
        get_text (source args) = inr xml
        /\ rss_parser fromstring xml (limit args) (json args)
           = Ok (map PyStr lines)
        /\ print (String.concat (str1 newline) lines) = None
        /\ status = 0%Z
        /\ stdout = String.concat (str1 newline) lines ++ str1 newline.
Proof.
  split.
  - unfold main. destruct (get_text (source args)) as [e|xml]; [discriminate|].
    destruct (rss_parser fromstring xml (limit args) (json args))
      as [output|e] eqn:Hp; simpl; [|discriminate].
    destruct (all_str output) as [lines|e] eqn:Hl; simpl; [|discriminate].
    destruct (print (String.concat (str1 newline) lines)) as [p|] eqn:Hpr;
      [discriminate|].
    intros [= <- <-]. exists xml, lines.
    rewrite (all_str_ok _ _ Hl) in Hp.
    split; [reflexivity|]. split; [exact Hp|]. split; [exact Hpr|].
    split; reflexivity.
  - intros (xml & lines & Hg & Hp & Hpr & -> & ->).
    rewrite (main_downloaded args xml Hg), Hp. simpl.
    rewrite all_str_strings. simpl. rewrite Hpr. reflexivity.
Qed.

Lemma main_download_fails (args : Args) (e : E) :
  get_text (source args) = inl e ->
  main fromstring E get_text P print args = Propagated e.
Proof. intros H. unfold main. rewrite H. reflexivity. Qed.

(** X13. After a successful download, everything raised inside the [try]
    leaves [main] wrapped in UnhandledException: an exception of
    [rss_parser], the TypeError of joining the lines when [rss_parser]
    returned a line that is not a string, and an exception of [print].
    When the document was parsed, what is wrapped from [rss_parser] or the
    join is a TypeError or the KeyError of [title] or [link]. *)
Theorem main_wraps_exceptions (args : Args) (xml : string) :
  get_text (source args) = inr xml ->
  (forall e, rss_parser fromstring xml (limit args) (json args) = Raise e ->
             main fromstring E get_text P print args
             = UnhandledException (Rendering e))
  /\ (forall output,
         rss_parser fromstring xml (limit args) (json args) = Ok output ->
         In PyNone output ->
         main fromstring E get_text P print args
         = UnhandledException (Rendering TypeError))
  /\ (forall lines p,
         rss_parser fromstring xml (limit args) (json args)
         = Ok (map PyStr lines) ->
         print (String.concat (str1 newline) lines) = Some p ->
         main fromstring E get_text P print args
         = UnhandledException (Printing p))
  /\ (forall tree e,
         fromstring xml = Some tree ->
         main fromstring E get_text P print args
         = UnhandledException (Rendering e) ->
         e = TypeError \/ e = KeyError "title" \/ e = KeyError "link").
Proof.
  intros Hg. rewrite (main_downloaded args xml Hg). split; [|split; [|split]].
  - intros e ->. reflexivity.
  - intros output -> Hnull. simpl. rewrite (all_str_null _ Hnull). reflexivity.
  - intros lines p -> Hpr. simpl. rewrite all_str_strings. simpl.
    rewrite Hpr. reflexivity.
  - intros tree e Hp. rewrite (rss_parser_parsed _ _ _ _ _ Hp).
    destruct (rss_parser_tree tree (limit args) (json args))
      as [output|e'] eqn:Ho; simpl.
    + destruct (all_str output) as [lines|e''] eqn:Hl; simpl.
      * destruct (print (String.concat (str1 newline) lines)); discriminate.
      * intros [= <-]. left. apply (all_str_raises _ _ Hl).
    + intros [= <-].
      destruct (rss_parser_tree_raises _ _ _ _ Ho) as [->|(_ & [->| ->])]; auto.
Qed.

End MainProperties.

Lemma main_wraps_exceptions_witness :
  main (parsed_as empty_fields_xml empty_fields_feed) unit sample_get_text
    unit ascii_print {| source := Some "u"; json := false; limit := None |}
  = UnhandledException (Rendering TypeError).
Proof.
  destruct (main_wraps_exceptions (parsed_as empty_fields_xml empty_fields_feed)
              unit sample_get_text unit ascii_print
              {| source := Some "u"; json := false; limit := None |}
              empty_fields_xml eq_refl) as (_ & H & _).
  apply (H [PyStr "Feed: None"; PyStr "Link: L"; PyStr " "; PyStr "Title: A";
            PyStr " "; PyNone; PyStr " "]).
  - reflexivity.
  - do 5 right. left. reflexivity.
Defined.

Example main_json_example :
  exists s,
    main (parsed_as empty_fields_xml empty_fields_feed) unit sample_get_text
      unit ascii_print {| source := Some "u"; json := true; limit := Some 1%Z |}
    = Returned 0 (s ++ str1 newline)
    /\ rss_parser_tree empty_fields_feed (Some 1%Z) true = Ok [PyStr s].
Proof. eexists. split; reflexivity. Qed.

Example main_download_example :
  main (parsed_as empty_fields_xml empty_fields_feed) unit sample_get_text
    unit ascii_print {| source := None; json := true; limit := None |}
  = Propagated tt.
Proof. reflexivity. Qed.

(** On a standard output that encodes ASCII only, a feed whose title has
    the code point 233 is rendered by [rss_parser] in both modes, and
    [main] ends with the wrapped exception of [print]. *)
Example main_print_fails_example :
  rss_parser (parsed_as accent_xml accent_feed) accent_xml None false
  = Ok [PyStr ("Feed: caf" ++ str1 (chr 233)); PyStr "Link: L"]
  /\ main (parsed_as accent_xml accent_feed) unit (fun _ => inr accent_xml)
       unit ascii_print {| source := Some "u"; json := false; limit := None |}
     = UnhandledException (Printing tt)
  /\ main (parsed_as accent_xml accent_feed) unit (fun _ => inr accent_xml)
       unit ascii_print {| source := Some "u"; json := true; limit := None |}
     = UnhandledException (Printing tt).
Proof. repeat split. Qed.

(** ** Descriptions without text *)

Lemma Forall2_select {A B : Type} (R : A -> B -> Prop) (l1 : list A)
  (l2 : list B) (limit : option Z) :
  Forall2 R l1 l2 ->
  Forall2 R (select_items l1 limit) (select_items l2 limit).
Proof.
  intros H. assert (Hlen := Forall2_length H).
  destruct limit as [L|]; [|exact H].
  unfold select_items, slice_to. rewrite Hlen.
  destruct (L =? 0)%Z; [exact H|].
  destruct (L <? 0)%Z; apply Forall2_firstn, H.
Qed.

Lemma Forall2_In_left {A B : Type} (R : A -> B -> Prop) (l1 : list A)
  (l2 : list B) (x : A) :
  Forall2 R l1 l2 -> In x l1 -> exists y, In y l2 /\ R x y.
Proof.
  intros H. induction H as [|a b l1 l2 Hab H IH]; intros Hin; [contradiction|].
  destruct Hin as [<-|Hin].
  - exists b. split; [left; reflexivity | exact Hab].
  - destruct (IH Hin) as (y & Hy & Hxy). exists y. split; [right|]; assumption.
Qed.

Lemma item_block_description (itm : dict) (b : list pyobj) (v : pyobj) :
  item_block itm = Ok b -> dict_get "description" itm = Some v -> In v b.
Proof.
  unfold item_block, text_item. intros H Hv. rewrite Hv in H.
  apply bind_ok in H. destruct H as (title & _ & H).
  apply bind_ok in H. destruct H as (out & _ & H). injection H as <-.
  apply in_or_app. left. apply in_or_app. right. left. reflexivity.
Qed.

Lemma item_blocks_In (items : list dict) (bs : list pyobj) (itm : dict) :
  item_blocks items = Ok bs -> In itm items ->
  exists b, item_block itm = Ok b /\ forall x, In x b -> In x bs.
Proof.
  revert bs. induction items as [|i items IH]; intros bs H Hin; [contradiction|].
  simpl in H. apply bind_ok in H. destruct H as (b & Hb & H).
  apply bind_ok in H. destruct H as (bs' & Hbs & H). injection H as <-.
  destruct Hin as [<-|Hin].
  - exists b. split; [exact Hb|]. intros x Hx. apply in_or_app. left. exact Hx.
  - destruct (IH bs' Hbs Hin) as (b' & Hb' & Hincl). exists b'.
    split; [exact Hb'|]. intros x Hx. apply in_or_app. right. apply Hincl, Hx.
Qed.

(** X14. In text mode, when a selected item's last description child has
    no text ([<description/>]), [rss_parser], if it returns, returns a list
    that holds None where the description line would be, and [main] then
    ends with UnhandledException(TypeError) at the join of the lines,
    before [print] is called: it never prints such a feed. *)
Theorem null_description_breaks_text_main (fromstring : string -> option Element)
  (E : Type) (get_text : option string -> E + string)
  (P : Type) (print : string -> option P) (args : Args)
  (xml : string) (tree itm d : Element) :
  get_text (source args) = inr xml ->
  fromstring xml = Some tree ->
  json args = false ->
  In itm (select_items (findall ["channel"; "item"] tree) (limit args)) ->
  last_tagged "description" (children itm) = Some d ->
  text d = None ->
  (forall output,
      rss_parser fromstring xml (limit args) false = Ok output ->
      In PyNone output
      /\ main fromstring E get_text P print args
         = UnhandledException (Rendering TypeError))
  /\ exists e, main fromstring E get_text P print args
               = UnhandledException (Rendering e).
Proof.
  intros Hg Hp Hj Hin Hd Ht.
  assert (Hout : forall output,
             rss_parser fromstring xml (limit args) false = Ok output ->
             In PyNone output).
  { intros output Ho. rewrite (rss_parser_parsed _ _ _ _ _ Hp) in Ho.
    destruct (extract tree) as [[channel item]|e] eqn:Hex;
      [|unfold rss_parser_tree in Ho; rewrite Hex in Ho; discriminate].
    rewrite (rss_parser_tree_extracted _ _ _ _ _ Hex) in Ho.
    destruct (extract_ok_inv _ _ _ Hex) as (c & _ & _ & Hall).
    apply (Forall2_select _ _ _ (limit args)) in Hall.
    destruct (Forall2_In_left _ _ _ _ Hall Hin) as (rec & Hrec & Hitm).
    destruct (parse_item_spec itm) as (rec' & Hrec' & Hf & _).
    rewrite Hitm in Hrec'. injection Hrec' as <-.
    assert (Hdesc : dict_get "description" rec = Some PyNone).
    { rewrite (Hf "description" "description") by in_fields.
      rewrite Hd. simpl. unfold text_obj. rewrite Ht. reflexivity. }
    simpl render in Ho. rewrite render_text_blocks in Ho.
    apply bind_ok in Ho. destruct Ho as (header & _ & Ho).
    apply bind_ok in Ho. destruct Ho as (bs & Hbs & Ho). injection Ho as <-.
    destruct (item_blocks_In _ _ _ Hbs Hrec) as (b & Hb & Hincl).
    apply in_or_app. right. apply Hincl.
    apply (item_block_description rec b PyNone Hb Hdesc). }
  rewrite (main_downloaded _ _ _ _ _ _ _ Hg), Hj.
  destruct (rss_parser fromstring xml (limit args) false) as [output|e] eqn:Ho.
  - assert (Hnull := Hout output eq_refl). simpl.
    rewrite (all_str_null _ Hnull). simpl. split.
    + intros output' [= <-]. split; [exact Hnull | reflexivity].
    + exists TypeError. reflexivity.
  - simpl. split; [intros output' H; discriminate H|].
    exists e. reflexivity.
Qed.

Lemma null_description_breaks_text_main_witness :
  exists e,
    main (parsed_as empty_fields_xml empty_fields_feed) unit sample_get_text
      unit ascii_print
      {| source := Some "u"; json := false; limit := Some 5%Z |}
    = UnhandledException (Rendering e).
Proof.
  apply (null_description_breaks_text_main
           (parsed_as empty_fields_xml empty_fields_feed) unit sample_get_text
           unit ascii_print
           {| source := Some "u"; json := false; limit := Some 5%Z |}
           empty_fields_xml empty_fields_feed
           (Elem "item" None [leaf "title" (Some "A"); leaf "description" None])
           (leaf "description" None)).
  - reflexivity.
  - reflexivity.
  - reflexivity.
  - left. reflexivity.
  - reflexivity.
  - reflexivity.
Defined.

(** X15. In JSON mode, on a document whose root has a channel child and
    whose channel categories all have a text, [rss_parser] returns one
    string whatever the items contain, and [main] passes it to [print]: it
    returns 0 after writing the string and a line break when [print]
    succeeds, and ends with the wrapped exception of [print] otherwise.
    When the root has no channel child, or a channel category has no text,
    [main] ends with UnhandledException(TypeError) and [print] is not
    called. *)
Theorem main_json_outcome (fromstring : string -> option Element)
  (E : Type) (get_text : option string -> E + string)
  (P : Type) (print : string -> option P) (args : Args)
  (xml : string) (tree : Element) :
  get_text (source args) = inr xml ->
  fromstring xml = Some tree ->
  json args = true ->
  (find ["channel"] tree = None ->
   main fromstring E get_text P print args
   = UnhandledException (Rendering TypeError))
  /\ (forall c, find ["channel"] tree = Some c ->
        (exists e, In e (children c) /\ tag e = "category"
                   /\ (text e = None \/ text e = Some EmptyString)) ->
        main fromstring E get_text P print args
        = UnhandledException (Rendering TypeError))
  /\ (forall c, find ["channel"] tree = Some c ->
        ~ (exists e, In e (children c) /\ tag e = "category"
                     /\ (text e = None \/ text e = Some EmptyString)) ->
        exists s,
          rss_parser fromstring xml (limit args) true = Ok [PyStr s]
          /\ main fromstring E get_text P print args
             = match print s with
               | None => Returned 0 (s ++ str1 newline)
               | Some p => UnhandledException (Printing p)
               end).
Proof.
  intros Hg Hp Hj. rewrite (main_downloaded _ _ _ _ _ _ _ Hg), Hj.
  rewrite (rss_parser_parsed _ _ _ _ _ Hp). split; [|split].
  - intros Hc. unfold rss_parser_tree.
    rewrite (extract_no_channel tree Hc). reflexivity.
  - intros c Hc Hnull. apply category_texts_null in Hnull.
    rewrite (json_mode_null_category tree c (limit args) Hc Hnull). reflexivity.
  - intros c Hc Hnn. rewrite <- category_texts_null in Hnn.
    destruct (json_mode_with_texts tree c (limit args) Hc Hnn) as (s & Hs).
    exists s. rewrite Hs. split; reflexivity.
Qed.

Lemma main_json_outcome_witness :
  exists s,
    rss_parser (parsed_as empty_fields_xml empty_fields_feed) empty_fields_xml
      None true = Ok [PyStr s]
    /\ main (parsed_as empty_fields_xml empty_fields_feed) unit sample_get_text
         unit ascii_print {| source := Some "u"; json := true; limit := None |}
       = match ascii_print s with
         | None => Returned 0 (s ++ str1 newline)
         | Some p => UnhandledException (Printing p)
         end.
Proof.
  destruct (main_json_outcome
              (parsed_as empty_fields_xml empty_fields_feed) unit sample_get_text
              unit ascii_print
              {| source := Some "u"; json := true; limit := None |}
              empty_fields_xml empty_fields_feed eq_refl eq_refl eq_refl)
    as (_ & _ & H).
  apply (H (Elem "channel" None
              [leaf "title" None; leaf "link" (Some "L");
               Elem "item" None
                 [leaf "title" (Some "A"); leaf "description" None]])).
  - reflexivity.
  - intros (e & Hin & Ht & _).
    destruct Hin as [<-|[<-|[<-|[]]]]; discriminate Ht.
Defined.
